(** * skil-python: the Service / Pipeline / Resource client layer

    A shallow embedding of [skil/services.py] and [skil/resources/common.py].
    Python objects live in a heap of attribute dictionaries, every method is
    a computation in a state-and-exception monad over the client's world
    (heap, requests sent, printed lines, clock, file system), and the remote
    server is an oracle indexed by the number of requests sent so far. *)

From Stdlib Require Import ZArith List Bool Lia Floats.SpecFloat.
From stdpp Require Import base option list strings pretty gmap.

Local Open Scope string_scope.
Local Open Scope Z_scope.

(** ** Exceptions and results *)

Inductive exn :=
  | AttributeError
  | IndexError
  | ValueError
  | ApiException
  | ConnectionError
  | FileNotFoundError
  | IsADirectoryError
  | PermissionError
  | Cv2Error
  | Exception (msg : string).

(** [Running] is the answer of a loop that was still iterating when the
    fuel given to it ran out; no Python value corresponds to it. *)
Inductive outcome (A : Type) :=
  | Ok (a : A)
  | Raise (e : exn)
  | Running.
Arguments Ok {A} a.
Arguments Raise {A} e.
Arguments Running {A}.

Definition obind {A B} (r : outcome A) (k : A -> outcome B) : outcome B :=
  match r with
  | Ok a => k a
  | Raise e => Raise e
  | Running => Running
  end.

(** ** numpy arrays *)

Module NumPy.

(** An array is its shape and its elements in row-major (C) index order. *)
Record ndarray (T : Type) := Ndarray { shape : list nat; buffer : list T }.
Arguments Ndarray {T} shape buffer.
Arguments shape {T} _.
Arguments buffer {T} _.

Definition prod_shape (shp : list nat) : nat := foldr Nat.mul 1%nat shp.

(** [a.size] *)
Definition size {T} (a : ndarray T) : nat := prod_shape (shape a).

(** The arrays numpy can build: as many elements as the shape asks for. *)
Definition well_formed {T} (a : ndarray T) : Prop :=
  length (buffer a) = size a.

(** Python numbers, as [tolist] hands them out and as a response carries
    them: an [int] of any size or a [float] (an IEEE double). *)
Inductive pyscalar :=
  | PyInt (z : Z)
  | PyFloat (f : spec_float).

(** The element types [np.asarray] arrives at for lists of such numbers. *)
Inductive dtype := Int64 | UInt64 | Float64 | Object.

(** The type numpy finds for one Python number: the first of [int64],
    [uint64] and [object] that holds an [int], [float64] for a [float]. *)
Definition dtype_of (x : pyscalar) : dtype :=
  match x with
  | PyFloat _ => Float64
  | PyInt z =>
      if (- 2 ^ 63 <=? z) && (z <? 2 ^ 63) then Int64
      else if (2 ^ 63 <=? z) && (z <? 2 ^ 64) then UInt64
      else Object
  end.

(** [np.promote_types] on these four. *)
Definition promote_types (a b : dtype) : dtype :=
  match a, b with
  | Object, _ | _, Object => Object
  | Float64, _ | _, Float64 => Float64
  | Int64, Int64 => Int64
  | UInt64, UInt64 => UInt64
  | Int64, UInt64 | UInt64, Int64 => Float64
  end.

(** The element type of [np.asarray(l)]; an empty list gives [float64]. *)
Definition result_type (l : list pyscalar) : dtype :=
  match l with
  | [] => Float64
  | x :: l' => foldl (fun d y => promote_types d (dtype_of y)) (dtype_of x) l'
  end.

(** [float(z)]: the double nearest to [z], ties to even. *)
Definition float_of_int (z : Z) : spec_float :=
  binary_normalize 53 1024 z 0 false.

(** One element stored under the array's type, read back as a Python
    number: an [int] in a [float64] array has become a [float]. *)
Definition astype (d : dtype) (x : pyscalar) : pyscalar :=
  match d, x with
  | Float64, PyInt z => PyFloat (float_of_int z)
  | _, _ => x
  end.

(** The scalars of an array: what [np.asarray] makes of a list of them when
    it brings the elements to their common type. *)
Class Scalar (T : Type) := MkScalar {
  as_common_type : list T -> list T;
  as_common_type_length : forall l, length (as_common_type l) = length l
}.

Global Instance python_numbers : Scalar pyscalar :=
  MkScalar pyscalar
           (fun l => map (astype (result_type l)) l)
           (fun l => length_map (astype (result_type l)) l).

Global Instance dtype_eq_dec : EqDecision dtype.
Proof. solve_decision. Defined.

(** Lists whose numbers are all of one kind: all [float], all [int] of the
    [int64] range, or all [int] of the upper [uint64] range. *)
Definition one_kind (l : list pyscalar) : bool :=
  forallb (fun x => bool_decide (dtype_of x = Float64)) l
  || forallb (fun x => bool_decide (dtype_of x = Int64)) l
  || forallb (fun x => bool_decide (dtype_of x = UInt64)) l.

(** [np.asarray(l)] for a flat list of scalars. *)
Definition asarray {T} `{Scalar T} (l : list T) : ndarray T :=
  Ndarray [length l] (as_common_type l).

(** [a.tolist()] for a one-dimensional [a]. *)
Definition tolist {T} (a : ndarray T) : list T := buffer a.

(** [np.expand_dims(a, 0)] *)
Definition expand_dims0 {T} (a : ndarray T) : ndarray T :=
  Ndarray (1%nat :: shape a) (buffer a).

(** Any negative entry of a shape stands for the dimension to infer. *)
Definition is_unknown (d : Z) : bool := d <? 0.

Definition known_size (newshape : list Z) : nat :=
  prod_shape
    (map Z.to_nat (List.filter (fun d => negb (is_unknown d)) newshape)).

(** The shape [reshape] settles on: at most one dimension may be negative,
    and it is inferred from the number of elements. *)
Definition resolve_shape (n : nat) (newshape : list Z) : outcome (list nat) :=
  let known := known_size newshape in
  match length (List.filter is_unknown newshape) with
  | O =>
      if (known =? n)%nat then Ok (map Z.to_nat newshape)
      else Raise ValueError
  | S O =>
      if (known =? 0)%nat || negb (n mod known =? 0)%nat
      then Raise ValueError
      else Ok (map (fun d => if is_unknown d then (n / known)%nat
                             else Z.to_nat d) newshape)
  | _ => Raise ValueError
  end.

(** [a.reshape(newshape)], default order 'C'. *)
Definition reshape {T} (a : ndarray T) (newshape : list Z)
  : outcome (ndarray T) :=
  obind (resolve_shape (size a) newshape)
        (fun shp => Ok (Ndarray shp (buffer a))).

(** [a[i, j]] of a two-dimensional array. *)
Definition item2 {T} (a : ndarray T) (i j : nat) : option T :=
  match shape a with
  | [n; m] =>
      if (i <? n)%nat && (j <? m)%nat then buffer a !! (i * m + j)%nat
      else None
  | _ => None
  end.

End NumPy.


(** ** Wire descriptors of the generated client *)

Module SkilClient.

(** [skil_client.INDArray] *)
Record INDArray (T : Type) := MkINDArray {
  ordering : string;
  ind_shape : list Z;
  data : list T
}.
Arguments MkINDArray {T} ordering ind_shape data.
Arguments ordering {T} _.
Arguments ind_shape {T} _.
Arguments data {T} _.

End SkilClient.

Import NumPy SkilClient.

(** A list of Python [int]s. *)
Definition ints (l : list Z) : list pyscalar := map PyInt l.

(** [Service._indarray] *)
Definition _indarray {T} (np_array : ndarray T) : outcome (INDArray T) :=
  obind (reshape np_array [-1])
        (fun flat =>
           Ok (MkINDArray "c" (map Z.of_nat (shape np_array)) (tolist flat))).

(** [np.asarray(o.data).reshape(o.shape)], as [predict] and
    [predict_single] rebuild an output. *)
Definition output_array {T} `{Scalar T} (o : INDArray T)
  : outcome (ndarray T) :=
  reshape (asarray (data o)) (ind_shape o).

(** ** Python objects *)

Module Py.

Definition loc := positive.

Inductive value :=
  | VNone
  | VBool (b : bool)
  | VInt (z : Z)
  | VStr (s : string)
  | VRef (l : loc)      (* an instance, with its attribute dictionary *)
  | VApi                (* the generated REST client, [skil.api] *)
  | VPrinter.           (* [skil.printer] *)
Arguments VRef l%_positive.

Global Instance value_eq_dec : EqDecision value.
Proof. solve_decision. Defined.

(** Truth value of an object in a condition.  No class of this package
    defines [__bool__] or [__len__], so every instance is true. *)
Definition truthy (v : value) : bool :=
  match v with
  | VNone => false
  | VBool b => b
  | VInt z => negb (z =? 0)
  | VStr s => negb (String.eqb s "")
  | VRef _ | VApi | VPrinter => true
  end.

(** [str(v)], as [str.format] applies it. *)
Definition str (v : value) : string :=
  match v with
  | VNone => "None"
  | VBool true => "True"
  | VBool false => "False"
  | VInt z => pretty z
  | VStr s => s
  | VRef _ => "<object>"
  | VApi => "<api>"
  | VPrinter => "<printer>"
  end.

End Py.

Import Py.

(** What [predict] takes and returns: one array, or a Python list of them. *)
Inductive pydata (T : Type) :=
  | Arr (a : ndarray T)
  | Arrs (l : list (ndarray T)).
Arguments Arr {T} a.
Arguments Arrs {T} l.

(** A list comprehension whose body may raise. *)
Fixpoint comprehension {A B} (f : A -> outcome B) (l : list A)
  : outcome (list B) :=
  match l with
  | [] => Ok []
  | x :: l' =>
      obind (f x) (fun y => obind (comprehension f l') (fun ys => Ok (y :: ys)))
  end.

(** ** The client's world *)

(** Requests that leave the client, as the remote side sees them. *)
Inductive Request (T : Type) :=
  | ModelStateChange (deployment_id model_id : value) (set_state : string)
  | MultiPredict (deployment_name model_name : value) (version_name : value)
                 (id : string) (needs_pre_processing : bool)
                 (inputs : list (INDArray T))
  | DeleteResourceById (resource_id : value)
  | PostDetectObjects (url : string) (headers : value) (file : string)
                      (id : value) (needs_preprocessing threshold : string).
Arguments ModelStateChange {T}.
Arguments MultiPredict {T}.
Arguments DeleteResourceById {T}.
Arguments PostDetectObjects {T}.

(** What [cv2.imwrite] does with a path and an image: it writes the file and
    returns [True], returns [False] without writing, or raises [cv2.error]
    (an extension it has no encoder for, an empty image). *)
Inductive imwrite_outcome := Written | NotWritten | ImwriteFails.

(** What is at a path that holds no regular file: nothing, a directory, or
    something else that [open] takes and [os.path.isfile] does not (a device,
    a pipe). *)
Inductive path_entry := NoEntry | Directory | Device.

(** What the environment answers.  The oracles of the remote side are indexed
    by the number of requests sent before the one they answer; [None] is a
    call that raises, and [post_error] is what a failed upload raises.  The
    others describe the local machine: OpenCV, what is at a path that holds
    no regular file, whether the operating system lets what is at a path be
    read, whether it lets a file there be removed, and what [os.remove]
    raises when it does not. *)
Record Server (T : Type) := MkServer {
  state_of : nat -> option value;
  outputs_of : nat -> option (list (INDArray T));
  delete_ok : nat -> bool;
  post_content : nat -> option string;
  post_error : nat -> exn;
  uuid1 : nat -> string;
  cv2_installed : bool;
  imwrite_result : string -> ndarray T -> imwrite_outcome;
  entry_at : string -> path_entry;
  readable : string -> bool;
  removable : string -> bool;
  remove_error : string -> exn
}.
Arguments MkServer {T}.
Arguments state_of {T}.
Arguments outputs_of {T}.
Arguments delete_ok {T}.
Arguments post_content {T}.
Arguments post_error {T}.
Arguments uuid1 {T}.
Arguments cv2_installed {T}.
Arguments imwrite_result {T}.
Arguments entry_at {T}.
Arguments readable {T}.
Arguments removable {T}.
Arguments remove_error {T}.

(** What the client does that can be seen from outside, one event each. *)
Inductive Event (T : Type) :=
  | Sent (r : Request T)
  | Printed (msg : string)
  | Slept (secs : Z)
  | Wrote (path : string)
  | Removed (path : string).
Arguments Sent {T}.
Arguments Printed {T}.
Arguments Slept {T}.
Arguments Wrote {T}.
Arguments Removed {T}.

(** [files] are the regular files on disk.  [events] has everything the
    client did, oldest first; [sent], [stdout] and [slept] keep the requests,
    the printed lines and the seconds slept on their own. *)
Record World (T : Type) := MkWorld {
  heap : gmap loc (gmap string value);
  sent : list (Request T);
  stdout : list string;
  slept : Z;
  files : gset string;
  events : list (Event T)
}.
Arguments MkWorld {T}.
Arguments heap {T}.
Arguments sent {T}.
Arguments stdout {T}.
Arguments slept {T}.
Arguments files {T}.
Arguments events {T}.

Section Client.

Context {T : Type}.
Context {scalars : Scalar T}.
Variable env : Server T.

(** *** The monad of method bodies *)

Definition M (A : Type) : Type := World T -> outcome A * World T.

Definition ret {A} (a : A) : M A := fun w => (Ok a, w).
Definition raise {A} (e : exn) : M A := fun w => (Raise e, w).
Definition out_of_fuel {A} : M A := fun w => (Running, w).

Definition bind {A B} (c : M A) (k : A -> M B) : M B :=
  fun w =>
    match c w with
    | (Ok a, w') => k a w'
    | (Raise e, w') => (Raise e, w')
    | (Running, w') => (Running, w')
    end.

Definition lift {A} (r : outcome A) : M A := fun w => (r, w).

(** stdpp's [x ← c; k] and [c;; k] for method bodies. *)
Global Instance M_ret : MRet M := @ret.
Global Instance M_bind : MBind M := fun A B k c => bind c k.

(** *** Attributes *)

Definition attr (w : World T) (v : value) (name : string) : option value :=
  match v with
  | VRef l => heap w !! l ≫= (fun o => o !! name)
  | _ => None
  end.

(** [v.name] *)
Definition getattr (v : value) (name : string) : M value :=
  fun w =>
    match attr w v name with
    | Some x => (Ok x, w)
    | None => (Raise AttributeError, w)
    end.

Definition set_heap (h : gmap loc (gmap string value)) (w : World T)
  : World T :=
  MkWorld h (sent w) (stdout w) (slept w) (files w) (events w).

(** The world after [name] of the instance at [l] is bound to [x]. *)
Definition store (l : loc) (name : string) (x : value) (w : World T)
  : World T :=
  set_heap (<[l := <[name := x]> (default ∅ (heap w !! l))]> (heap w)) w.

(** [v.name = x] *)
Definition setattr (v : value) (name : string) (x : value) : M unit :=
  fun w =>
    match v with
    | VRef l => (Ok tt, store l name x w)
    | _ => (Raise AttributeError, w)
    end.

(** *** Library and remote calls *)

(** [time.sleep(secs)] *)
Definition sleep (secs : Z) : M unit :=
  fun w =>
    (Ok tt, MkWorld (heap w) (sent w) (stdout w) (slept w + secs) (files w)
                    (events w ++ [Slept secs])).

(** [printer.pprint(msg)] *)
Definition pprint (printer : value) (msg : string) : M unit :=
  fun w =>
    match printer with
    | VPrinter =>
        (Ok tt,
         MkWorld (heap w) (sent w) (stdout w ++ [msg]) (slept w) (files w)
                 (events w ++ [Printed msg]))
    | _ => (Raise AttributeError, w)
    end.

Definition send (r : Request T) (w : World T) : World T :=
  MkWorld (heap w) (sent w ++ [r]) (stdout w) (slept w) (files w)
          (events w ++ [Sent r]).

(** [api.model_state_change(deployment_id, model_id, SetState(s)).state] *)
Definition model_state_change (api : value) (deployment_id model_id : value)
           (s : string) : M value :=
  fun w =>
    match api with
    | VApi =>
        let w' := send (ModelStateChange deployment_id model_id s) w in
        match state_of env (length (sent w)) with
        | Some st => (Ok st, w')
        | None => (Raise ApiException, w')
        end
    | _ => (Raise AttributeError, w)
    end.

(** [api.multipredict(...).outputs] *)
Definition multipredict (api : value) (deployment_name model_name : value)
           (version_name : value) (id : string) (inputs : list (INDArray T))
  : M (list (INDArray T)) :=
  fun w =>
    match api with
    | VApi =>
        let w' := send (MultiPredict deployment_name model_name version_name
                                     id false inputs) w in
        match outputs_of env (length (sent w)) with
        | Some outs => (Ok outs, w')
        | None => (Raise ApiException, w')
        end
    | _ => (Raise AttributeError, w)
    end.

(** [api.delete_resource_by_id(resource_id=rid)] *)
Definition delete_resource_by_id (api : value) (rid : value) : M unit :=
  fun w =>
    match api with
    | VApi =>
        let w' := send (DeleteResourceById rid) w in
        if delete_ok env (length (sent w)) then (Ok tt, w')
        else (Raise ApiException, w')
    | _ => (Raise AttributeError, w)
    end.

(** [cv2.imwrite(path, image)]; the returned flag is dropped by the caller. *)
Definition imwrite (path : string) (image : ndarray T) : M unit :=
  fun w =>
    match imwrite_result env path image with
    | Written =>
        (Ok tt, MkWorld (heap w) (sent w) (stdout w) (slept w)
                        ({[path]} ∪ files w) (events w ++ [Wrote path]))
    | NotWritten => (Ok tt, w)
    | ImwriteFails => (Raise Cv2Error, w)
    end.

(** Entering [with open(path, 'rb')]. *)
Definition open_rb (path : string) : M unit :=
  fun w =>
    if decide (path ∈ files w) then
      if readable env path then (Ok tt, w) else (Raise PermissionError, w)
    else
      match entry_at env path with
      | NoEntry => (Raise FileNotFoundError, w)
      | Directory => (Raise IsADirectoryError, w)
      | Device =>
          if readable env path then (Ok tt, w) else (Raise PermissionError, w)
      end.

(** [requests.post(url, headers, files, data).content] *)
Definition requests_post (url : string) (headers : value) (file : string)
           (id : value) (needs_preprocessing threshold : string) : M string :=
  fun w =>
    let w' := send (PostDetectObjects url headers file id
                                      needs_preprocessing threshold) w in
    match post_content env (length (sent w)) with
    | Some body => (Ok body, w')
    | None => (Raise (post_error env (length (sent w))), w')
    end.

(** [if os.path.isfile(path): os.remove(path)] *)
Definition remove_if_isfile (path : string) : M unit :=
  fun w =>
    if decide (path ∈ files w) then
      if removable env path
      then (Ok tt, MkWorld (heap w) (sent w) (stdout w) (slept w)
                           (files w ∖ {[path]}) (events w ++ [Removed path]))
      else (Raise (remove_error env path), w)
    else (Ok tt, w).

(** [str(uuid.uuid1())] *)
Definition fresh_uuid : M string :=
  fun w => (Ok (uuid1 env (length (sent w))), w).

(** *** Service *)

(** [Service.__init__] *)
Definition Service_init (self skil model deployment model_deployment : value)
  : M unit :=
  setattr self "skil" skil;;
  setattr self "model" model;;
  m ← getattr self "model";
  name ← getattr m "name";
  setattr self "model_name" name;;
  setattr self "model_deployment" model_deployment;;
  setattr self "deployment" deployment.

(** [self.skil.api.model_state_change(self.deployment.id,
      self.model_deployment.id, skil_client.SetState(s)).state] *)
Definition state_change (self : value) (s : string) : M value :=
  skil ← getattr self "skil";
  api ← getattr skil "api";
  deployment ← getattr self "deployment";
  deployment_id ← getattr deployment "id";
  model_deployment ← getattr self "model_deployment";
  model_id ← getattr model_deployment "id";
  model_state_change api deployment_id model_id s.

(** [self.skil.printer.pprint(msg)] *)
Definition say (self : value) (msg : string) : M unit :=
  skil ← getattr self "skil";
  printer ← getattr skil "printer";
  pprint printer msg.

(** The [while True] of [Service.start], run for at most [fuel] rounds. *)
Fixpoint start_loop (fuel : nat) (self : value) : M unit :=
  match fuel with
  | O => out_of_fuel
  | S fuel' =>
      sleep 5;;
      model_state ← state_change self "start";
      if decide (model_state = VStr "started") then
        sleep 15;;
        say self ">>> Model server started successfully!"
      else
        say self ">>> Waiting for deployment...";;
        start_loop fuel' self
  end.

(** [Service.start] *)
Definition start (fuel : nat) (self : value) : M unit :=
  model_deployment ← getattr self "model_deployment";
  if negb (truthy model_deployment) then
    say self "No model deployed yet, call 'deploy()' on a model first."
  else
    state_change self "start";;
    say self ">>> Starting to serve model...";;
    start_loop fuel self.

(** [Service.stop] *)
Definition stop (self : value) : M unit :=
  state_change self "stop";;
  mret tt.

(** The request side shared by [predict] and [predict_single]:
    [self.skil.api.multipredict(...).outputs]. *)
Definition classification_outputs (self : value) (version : value)
           (inputs : list (INDArray T)) : M (list (INDArray T)) :=
  skil ← getattr self "skil";
  api ← getattr skil "api";
  deployment ← getattr self "deployment";
  deployment_name ← getattr deployment "name";
  model_name ← getattr self "model_name";
  id ← fresh_uuid;
  multipredict api deployment_name model_name version id inputs.

(** [Service.predict] *)
Definition predict (self : value) (data : pydata T) (version : value)
  : M (pydata T) :=
  inputs ← lift (match data with
                 | Arrs l => comprehension _indarray l
                 | Arr a => obind (_indarray a) (fun x => Ok [x])
                 end);
  outputs ← classification_outputs self version inputs;
  outputs ← lift (comprehension output_array outputs);
  match outputs with
  | [o] => mret (Arr o)
  | _ => mret (Arrs outputs)
  end.

(** [Service.predict_single] *)
Definition predict_single (self : value) (data : pydata T) (version : value)
  : M (pydata T) :=
  inputs ← lift (match data with
                 | Arrs l =>
                     comprehension (fun x => _indarray (expand_dims0 x)) l
                 | Arr a =>
                     obind (_indarray (expand_dims0 a)) (fun x => Ok [x])
                 end);
  outputs ← classification_outputs self version inputs;
  match outputs with
  | [] => raise IndexError
  | output :: _ => a ← lift (output_array output); mret (Arr a)
  end.

(** Library values the module only passes along: a Python float with its
    [str], and what [json.loads] makes of a response body. *)
Context {float Json : Type}.
Variable str_float : float -> string.
Variable json_loads : string -> option Json.

(** [Service.detect_objects] *)
Definition detect_objects (self : value) (image : ndarray T)
           (threshold : float) (needs_preprocessing : bool)
           (temp_path : string) : M Json :=
  if negb (cv2_installed env) then
    raise (Exception "OpenCV is not installed.")
  else
    imwrite temp_path image;;
    skil ← getattr self "skil";
    config ← getattr skil "config";
    host ← getattr config "host";
    model ← getattr self "model";
    deployment ← getattr model "deployment";
    deployment_name ← getattr deployment "name";
    model ← getattr self "model";
    model_name ← getattr model "name";
    model ← getattr self "model";
    model_version ← getattr model "version";
    let url := "http://" +:+ str host +:+ "/endpoints/"
                 +:+ str deployment_name +:+ "/model/" +:+ str model_name
                 +:+ "/v" +:+ str model_version +:+ "/detectobjects" in
    open_rb temp_path;;
    skil ← getattr self "skil";
    headers ← getattr skil "auth_headers";
    model ← getattr self "model";
    model_id ← getattr model "id";
    content ← requests_post url headers temp_path model_id
                (if needs_preprocessing then "true" else "false")
                (str_float threshold);
    remove_if_isfile temp_path;;
    match json_loads content with
    | Some result => mret result
    | None => raise ValueError
    end.

(** *** Pipeline *)

(** The arguments [Pipeline.__init__] hands to both [deploy] calls. *)
Record deploy_args := DeployArgs {
  da_deployment : value;
  da_start_server : value;
  da_scale : value;
  da_input_names : value;
  da_output_names : value;
  da_verbose : value
}.

(** [Model.deploy] / [Transform.deploy]: defined outside this module, so
    the body an instance runs is a parameter. *)
Variable deploy : value -> deploy_args -> M value.

(** [x.deploy(...)]: only instances can have the method. *)
Definition call_deploy (x : value) (args : deploy_args) : M value :=
  match x with
  | VRef _ => deploy x args
  | _ => raise AttributeError
  end.

(** [super(Pipeline, self).__init__(self, model.skil, deployment, None)] *)
Definition Pipeline_super_init (self model deployment : value) : M unit :=
  model_skil ← getattr model "skil";
  Service_init self self model_skil deployment VNone.

(** [Pipeline.__init__] *)
Definition Pipeline_init (self deployment model transform : value)
           (start_server scale input_names output_names verbose : value)
  : M unit :=
  let args := DeployArgs deployment start_server scale input_names
                         output_names verbose in
  Pipeline_super_init self model deployment;;
  model_service ← call_deploy model args;
  setattr self "model_service" model_service;;
  transform_service ← call_deploy transform args;
  setattr self "transform_service" transform_service.

(** [x.predict(data, version)] and [x.predict_single(data, version)] on
    whatever service [x] is: the stages of a pipeline are instances of any
    service class, so the method bodies are parameters. *)
Context {Data : Type}.
Variable call_predict : value -> Data -> value -> M Data.
Variable call_predict_single : value -> Data -> value -> M Data.

(** [Pipeline.predict] *)
Definition Pipeline_predict (self : value) (data : Data) (version : value)
  : M Data :=
  transform_service ← getattr self "transform_service";
  data ← (if truthy transform_service then
            transform_service ← getattr self "transform_service";
            call_predict transform_service data version
          else mret data);
  model_service ← getattr self "model_service";
  call_predict model_service data version.

(** [Pipeline.predict_single] *)
Definition Pipeline_predict_single (self : value) (data : Data)
           (version : value) : M Data :=
  transform_service ← getattr self "transform_service";
  data ← (if truthy transform_service then
            transform_service ← getattr self "transform_service";
            call_predict_single transform_service data version
          else mret data);
  model_service ← getattr self "model_service";
  call_predict_single model_service data version.

(** *** Resource *)

(** [Resource.__init__] *)
Definition Resource_init (self skil : value) : M unit :=
  setattr self "skil" skil;;
  setattr self "resource_id" VNone.

(** [Resource.delete] *)
Definition delete (self : value) : M unit :=
  resource_id ← getattr self "resource_id";
  if truthy resource_id then
    skil ← getattr self "skil";
    api ← getattr skil "api";
    resource_id ← getattr self "resource_id";
    delete_resource_by_id api resource_id
  else mret tt.

End Client.

(** The descriptors [predict] sends for its input. *)
Definition inputs_of {T} (data : pydata T) : list (INDArray T) :=
  let descriptor a := MkINDArray "c" (map Z.of_nat (shape a)) (buffer a) in
  match data with
  | Arr a => [descriptor a]
  | Arrs l => map descriptor l
  end.

(** ** Shapes of well-built objects *)

(** [self] is a service wired to a server, a deployment with id [dep_id] and
    a model deployment with id [md_id]. *)
Definition wired {T} (w : World T) (self dep_id md_id : value) : Prop :=
  exists skil deployment model_deployment,
    attr w self "skil" = Some skil /\
    attr w skil "api" = Some VApi /\
    attr w self "deployment" = Some deployment /\
    attr w deployment "id" = Some dep_id /\
    attr w self "model_deployment" = Some model_deployment /\
    truthy model_deployment = true /\
    attr w model_deployment "id" = Some md_id.

(** [self.skil.printer] is the server's printer. *)
Definition has_printer {T} (w : World T) (self : value) : Prop :=
  exists skil,
    attr w self "skil" = Some skil /\ attr w skil "printer" = Some VPrinter.

(** What one fruitless round of the loop in [start] does, in order: sleep,
    ask, report. *)
Definition poll_round {T} (req : Request T) : list (Event T) :=
  [Slept 5; Sent req; Printed ">>> Waiting for deployment..."].

Definition poll_rounds {T} (req : Request T) (k : nat) : list (Event T) :=
  concat (replicate k (poll_round req)).

(** The world once [start] has sent its first request and announced it. *)
Definition start_requested {T} (req : Request T) (w : World T) : World T :=
  MkWorld (heap w) (sent w ++ [req])
          (stdout w ++ [">>> Starting to serve model..."])
          (slept w) (files w)
          (events w ++ [Sent req; Printed ">>> Starting to serve model..."]).

(** The world [k] polling rounds of [start] later, none of which saw
    "started". *)
Definition after_polls {T} (req : Request T) (k : nat) (w : World T)
  : World T :=
  MkWorld (heap w)
          (sent w ++ replicate k req)
          (stdout w ++ replicate k ">>> Waiting for deployment...")
          (slept w + 5 * Z.of_nat k)
          (files w)
          (events w ++ poll_rounds req k).

(** The world in which [start] returns after its [k+1]-st poll. *)
Definition started_world {T} (req : Request T) (k : nat) (w : World T)
  : World T :=
  MkWorld (heap w)
          (sent w ++ replicate (k + 2) req)
          (stdout w ++ [">>> Starting to serve model..."]
             ++ replicate k ">>> Waiting for deployment..."
             ++ [">>> Model server started successfully!"])
          (slept w + 5 * Z.of_nat (k + 1) + 15)
          (files w)
          (events w
             ++ [Sent req; Printed ">>> Starting to serve model..."]
             ++ poll_rounds req k
             ++ [Slept 5; Sent req; Slept 15;
                 Printed ">>> Model server started successfully!"]).

(** ** A small deployment to run the methods on *)

Definition demo_object (l : list (string * value)) : gmap string value :=
  list_to_map l.

(** Objects 1..5 are the server, a model, a deployment, the result of
    [deploy_model] and the server's configuration; object 6 is a service
    whose [model_deployment] is [md], object 8 a second service, object 7 a
    pipeline from 8 to 6, and object 9 a resource without an identifier. *)
Definition demo_heap (md : value) : gmap loc (gmap string value) :=
  list_to_map
    [ (1%positive, demo_object [("api", VApi); ("printer", VPrinter);
                                ("config", VRef 5);
                                ("auth_headers", VStr "Bearer t")]);
      (2%positive, demo_object [("name", VStr "iris"); ("skil", VRef 1);
                                ("deployment", VRef 3); ("version", VInt 1);
                                ("id", VStr "m-1")]);
      (3%positive, demo_object [("id", VStr "0"); ("name", VStr "demo")]);
      (4%positive, demo_object [("id", VStr "42")]);
      (5%positive, demo_object [("host", VStr "localhost:9008")]);
      (6%positive, demo_object [("skil", VRef 1); ("model", VRef 2);
                                ("model_name", VStr "iris");
                                ("model_deployment", md);
                                ("deployment", VRef 3)]);
      (7%positive, demo_object [("model_service", VRef 6);
                                ("transform_service", VRef 8)]);
      (8%positive, demo_object [("skil", VRef 1); ("model", VRef 2);
                                ("model_name", VStr "scaler");
                                ("model_deployment", md);
                                ("deployment", VRef 3)]);
      (9%positive, demo_object [("skil", VRef 1); ("resource_id", VNone)]) ].

Definition demo_world (md : value) : World pyscalar :=
  MkWorld (demo_heap md) [] [] 0 ∅ [].

(** A server whose first [k] state replies are "starting" and all later ones
    "started", that answers every prediction with [outs], and whose uploads
    get through when [up] is set. *)
Definition demo_server (k : nat) (outs : list (INDArray pyscalar)) (up : bool)
  : Server pyscalar :=
  {| state_of i := Some (VStr (if (i <? k)%nat then "starting"
                               else "started"));
     outputs_of _ := Some outs;
     delete_ok _ := true;
     post_content _ := if up then Some "{}" else None;
     post_error _ := ConnectionError;
     uuid1 _ := "b2a1";
     cv2_installed := true;
     imwrite_result _ _ := Written;
     entry_at _ := NoEntry;
     readable _ := true;
     removable _ := true;
     remove_error _ := PermissionError |}.

Definition demo_array : ndarray pyscalar :=
  Ndarray [2; 3]%nat (ints [1; 2; 3; 4; 5; 6]).

Definition demo_outputs : list (INDArray pyscalar) :=
  [MkINDArray "c" [1; 2] (ints [7; 8]); MkINDArray "c" [2; 1] (ints [9; 10])].

(** [model.deploy] of a model whose service is object 6. *)
Definition demo_deploy (x : value) (args : deploy_args)
  : M (T := pyscalar) value :=
  mret (VRef 6).

(** A server on which the model never comes up. *)
Definition stuck_server : Server pyscalar :=
  {| state_of _ := Some (VStr "starting");
     outputs_of _ := Some [];
     delete_ok _ := true;
     post_content _ := None;
     post_error _ := ConnectionError;
     uuid1 _ := "b2a1";
     cv2_installed := true;
     imwrite_result _ _ := Written;
     entry_at _ := NoEntry;
     readable _ := true;
     removable _ := true;
     remove_error _ := PermissionError |}.

(** ** The rest of the module *)

(** *** CSV records *)

Module TransformCsvService.

(** [skil_client.SingleCSVRecord] and [skil_client.BatchCSVRecord] *)
Record SingleCSVRecord := MkSingleCSVRecord { values : list string }.
Record BatchCSVRecord := MkBatchCSVRecord { records : list SingleCSVRecord }.

(** The scan of [str.split(sep)] for a non-empty [sep]: [skip] characters
    of a separator found earlier are still to be passed over, and [cur] is
    the field read so far. *)
Fixpoint split_scan (sep : string) (skip : nat) (cur : string) (s : string)
  : list string :=
  match s with
  | EmptyString => [cur]
  | String c s' =>
      match skip with
      | S k => split_scan sep k cur s'
      | O =>
          if String.prefix sep s
          then cur :: split_scan sep (String.length sep - 1) "" s'
          else split_scan sep 0 (cur +:+ String c "") s'
      end
  end.

(** [s.split(sep)] *)
Definition split (s sep : string) : outcome (list string) :=
  if String.eqb sep "" then Raise ValueError
  else Ok (split_scan sep 0 "" s).

(** [TransformCsvService._to_single_csv_record] *)
Definition _to_single_csv_record (data separator : string)
  : outcome SingleCSVRecord :=
  obind (split data separator) (fun fields => Ok (MkSingleCSVRecord fields)).

(** [TransformCsvService._to_batch_csv_record] *)
Definition _to_batch_csv_record (data : list string) (separator : string)
  : outcome BatchCSVRecord :=
  obind (comprehension (fun d => _to_single_csv_record d separator) data)
        (fun single_records => Ok (MkBatchCSVRecord single_records)).

End TransformCsvService.

(** *** Pipeline: the methods that hand over to the stages *)

Section Handover.

Context {T : Type}.

(** [x.start()] and [x.stop()] on whatever service [x] is. *)
Variable call_start : value -> M (T := T) unit.
Variable call_stop : value -> M (T := T) unit.

(** [Pipeline.start] *)
Definition Pipeline_start (self : value) : M unit :=
  model_service ← getattr self "model_service";
  call_start model_service;;
  transform_service ← getattr self "transform_service";
  call_start transform_service.

(** [Pipeline.stop] *)
Definition Pipeline_stop (self : value) : M unit :=
  model_service ← getattr self "model_service";
  call_stop model_service;;
  transform_service ← getattr self "transform_service";
  call_stop transform_service.

(** [x.predict_single(image, version)] and
    [x.detect_objects(image, threshold, needs_preprocessing, temp_path)]. *)
Context {Image float Json : Type}.
Variable call_predict_single : value -> Image -> value -> M (T := T) Image.
Variable call_detect_objects :
  value -> Image -> float -> bool -> string -> M (T := T) Json.

(** [Pipeline.detect_objects] *)
Definition Pipeline_detect_objects (self : value) (image : Image)
           (threshold : float) (needs_preprocessing : bool)
           (temp_path : string) (version : value) : M Json :=
  transform_service ← getattr self "transform_service";
  image ← (if truthy transform_service then
             transform_service ← getattr self "transform_service";
             call_predict_single transform_service image version
           else mret image);
  model_service ← getattr self "model_service";
  call_detect_objects model_service image threshold needs_preprocessing
                      temp_path.

End Handover.

(** *** What a method may do to the world *)

(** From [w] to [w'] no local object and no file changed, and every request
    sent in between satisfies [ok]. *)
Definition only_sends {T} (ok : Request T -> Prop) (w w' : World T) : Prop :=
  heap w' = heap w /\
  files w' = files w /\
  exists more : list (Request T),
    sent w' = (sent w ++ more)%list /\ Forall ok more.

Definition is_state_change {T} (s : string) (r : Request T) : Prop :=
  exists deployment_id model_id, r = ModelStateChange deployment_id model_id s.

Definition is_multipredict {T} (r : Request T) : Prop :=
  exists deployment_name model_name version_name id inputs,
    r = MultiPredict deployment_name model_name version_name id false inputs.

(** The method body [c] keeps to [only_sends ok] from every world. *)
Definition keeps {T A} (ok : Request T -> Prop) (c : M (T := T) A) : Prop :=
  forall w, only_sends ok w (c w).2.

(** [self] has what [predict] reads: a server API, a deployment called
    [deployment_name] and the model name [model_name]. *)
Definition predict_ready {T} (w : World T) (self : value)
           (deployment_name model_name : value) : Prop :=
  exists skil deployment,
    attr w self "skil" = Some skil /\
    attr w skil "api" = Some VApi /\
    attr w self "deployment" = Some deployment /\
    attr w deployment "name" = Some deployment_name /\
    attr w self "model_name" = Some model_name.



(** A server that fails its [k]-th request and reports "starting" to every
    other one, on a machine where [cv2.imwrite] does what [wr] says and
    removing a file is allowed when [rm] is set. *)
Definition failing_server (k : nat) (wr : imwrite_outcome) (rm : bool)
  : Server pyscalar :=
  {| state_of i := if (i =? k)%nat then None else Some (VStr "starting");
     outputs_of _ := Some [];
     delete_ok i := negb (i =? k)%nat;
     post_content _ := Some "{}";
     post_error _ := ConnectionError;
     uuid1 _ := "b2a1";
     cv2_installed := true;
     imwrite_result _ _ := wr;
     entry_at _ := NoEntry;
     readable _ := true;
     removable _ := rm;
     remove_error _ := PermissionError |}.

(** * Properties *)

(** ** Shapes *)

Lemma is_unknown_of_nat (n : nat) : is_unknown (Z.of_nat n) = false.
Proof. unfold is_unknown. apply Z.ltb_ge. lia. Qed.

Lemma no_unknown_dims (shp : list nat) :
  List.filter is_unknown (map Z.of_nat shp) = [].
Proof.
  induction shp as [|n shp IH]; simpl; [reflexivity|].
  now rewrite is_unknown_of_nat.
Qed.

Lemma all_dims_known (shp : list nat) :
  List.filter (fun d => negb (is_unknown d)) (map Z.of_nat shp)
  = map Z.of_nat shp.
Proof.
  induction shp as [|n shp IH]; simpl; [reflexivity|].
  rewrite is_unknown_of_nat. simpl. now rewrite IH.
Qed.

Lemma to_nat_of_nat (shp : list nat) : map Z.to_nat (map Z.of_nat shp) = shp.
Proof.
  induction shp as [|n shp IH]; simpl; [reflexivity|].
  now rewrite Nat2Z.id, IH.
Qed.

Lemma resolve_shape_same (shp : list nat) :
  resolve_shape (prod_shape shp) (map Z.of_nat shp) = Ok shp.
Proof.
  unfold resolve_shape, known_size.
  rewrite no_unknown_dims, all_dims_known, to_nat_of_nat.
  simpl. now rewrite Nat.eqb_refl.
Qed.

Lemma resolve_shape_flat (n : nat) : resolve_shape n [-1] = Ok [n].
Proof.
  unfold resolve_shape, known_size. cbn -[Nat.div Nat.modulo].
  now rewrite Nat.mod_1_r, Nat.div_1_r.
Qed.

Lemma indarray_run {T} (a : ndarray T) :
  _indarray a = Ok (MkINDArray "c" (map Z.of_nat (shape a)) (buffer a)).
Proof.
  unfold _indarray, reshape. now rewrite resolve_shape_flat.
Qed.

Lemma output_array_rebuilt {T} `{Scalar T} (a : ndarray T)
      (o : INDArray T) :
  well_formed a ->
  ind_shape o = map Z.of_nat (shape a) -> data o = buffer a ->
  output_array o = Ok (Ndarray (shape a) (as_common_type (buffer a))).
Proof.
  intros Hwf Hs Hd. unfold output_array, reshape, asarray, size. simpl.
  rewrite Hs, Hd, Nat.mul_1_r, Hwf. unfold size.
  now rewrite resolve_shape_same.
Qed.

Lemma output_array_any_rank {T} `{Scalar T} (a : ndarray T)
      (o : INDArray T) :
  well_formed a ->
  as_common_type (buffer a) = buffer a ->
  ind_shape o = map Z.of_nat (shape a) -> data o = buffer a ->
  output_array o = Ok a.
Proof.
  intros Hwf Hsame Hs Hd.
  rewrite (output_array_rebuilt a o Hwf Hs Hd), Hsame. now destruct a.
Qed.

Lemma item2_fmap {T} (f : T -> T) (shp : list nat) (l : list T) (i j : nat) :
  item2 (Ndarray shp (map f l)) i j = f <$> item2 (Ndarray shp l) i j.
Proof.
  unfold item2. simpl. destruct shp as [|n [|m [|k shp]]]; try reflexivity.
  destruct ((i <? n)%nat && (j <? m)%nat); [|reflexivity].
  apply list_lookup_fmap.
Qed.

(** ** Element types *)

Lemma result_type_one_kind (d : dtype) (l : list pyscalar) :
  promote_types d d = d ->
  Forall (fun x => dtype_of x = d) l ->
  l = [] \/ result_type l = d.
Proof.
  intros Hd Hall. destruct Hall as [|x l Hx Hall]; [now left|right].
  simpl. rewrite Hx.
  induction Hall as [|y l Hy Hall IH]; [reflexivity|].
  simpl. now rewrite Hy, Hd.
Qed.

Lemma forallb_dtype (d : dtype) (l : list pyscalar) :
  forallb (fun x => bool_decide (dtype_of x = d)) l = true ->
  Forall (fun x => dtype_of x = d) l.
Proof.
  intros Hall. apply Forall_forall. intros x Hx.
  rewrite forallb_forall in Hall.
  apply list_elem_of_In in Hx. apply Hall in Hx.
  now apply bool_decide_eq_true in Hx.
Qed.

Lemma astype_same (d : dtype) (l : list pyscalar) :
  Forall (fun x => dtype_of x = d) l -> map (astype d) l = l.
Proof.
  intros Hall. induction Hall as [|x l Hx Hall IH]; [reflexivity|].
  simpl. rewrite IH. f_equal.
  destruct d, x; try reflexivity. unfold dtype_of in Hx.
  repeat match type of Hx with
         | context [if ?b then _ else _] => destruct b
         end; discriminate.
Qed.

(** Numbers of one kind go through [np.asarray] as they are. *)
Lemma one_kind_as_common_type (l : list pyscalar) :
  one_kind l = true -> as_common_type l = l.
Proof.
  unfold one_kind. intros Hk. simpl.
  assert (Hcase : exists d, promote_types d d = d /\
                            Forall (fun x => dtype_of x = d) l).
  { apply orb_true_iff in Hk as [Hk|Hk];
      [apply orb_true_iff in Hk as [Hk|Hk]|].
    - exists Float64. split; [reflexivity|now apply forallb_dtype].
    - exists Int64. split; [reflexivity|now apply forallb_dtype].
    - exists UInt64. split; [reflexivity|now apply forallb_dtype]. }
  destruct Hcase as (d & Hd & Hall).
  destruct (result_type_one_kind d l Hd Hall) as [->| ->]; [reflexivity|].
  now apply astype_same.
Qed.



(** C1 fails as stated: an array of shape (1, 2) holding the unsigned
    64-bit integers 1 and 2^63+1 is marshalled with both values intact, but
    [np.asarray] finds [int64] for the first and [uint64] for the second,
    settles on [float64], and the array rebuilt from the same shape and data
    holds the doubles 1.0 and 2^63. *)
Lemma indarray_roundtrip_rounds_mixed_uint64 :
  let a := Ndarray [1; 2]%nat (ints [1; 2 ^ 63 + 1]) in
  shape a = [1; 2]%nat /\
  well_formed a /\
  exists d a',
    _indarray a = Ok d /\
    data d = ints [1; 2 ^ 63 + 1] /\
    output_array d = Ok a' /\
    shape a' = [1; 2]%nat /\
    item2 a 0 1 = Some (PyInt (2 ^ 63 + 1)) /\
    item2 a' 0 1 = Some (PyFloat (float_of_int (2 ^ 63))) /\
    a' <> a.
Proof.
  intros a. split; [reflexivity|]. split; [reflexivity|].
  eexists. eexists. split; [reflexivity|]. split; [reflexivity|].
  split; [vm_compute; reflexivity|].
  split; [reflexivity|]. split; [reflexivity|].
  split; [reflexivity|]. discriminate.
Qed.

(** C1, as the code has it: an array of shape (N, M) is marshalled by
    [_indarray] into a descriptor with ordering 'c', shape [N, M] and the
    elements in row-major order, and every response descriptor with that
    shape and data is rebuilt by [np.asarray(o.data).reshape(o.shape)] into
    an array of the original shape whose element (i, j) is the original one
    brought to the common type of all the numbers.  When the numbers are of
    one kind (all floats, all integers of the int64 range, or all integers
    from 2^63 up to 2^64) that is the original array, shape and values. *)
Theorem indarray_roundtrip (N M : nat) (a : ndarray pyscalar) :
  shape a = [N; M] ->
  well_formed a ->
  exists d,
    _indarray a = Ok d /\
    ordering d = "c" /\
    ind_shape d = [Z.of_nat N; Z.of_nat M] /\
    (forall i j, (i < N)%nat -> (j < M)%nat ->
                 data d !! (i * M + j)%nat = item2 a i j) /\
    (forall o, ind_shape o = ind_shape d -> data o = data d ->
               exists a',
                 output_array o = Ok a' /\
                 shape a' = [N; M] /\
                 well_formed a' /\
                 (forall i j,
                     item2 a' i j
                     = astype (result_type (buffer a)) <$> item2 a i j) /\
                 (one_kind (buffer a) = true -> a' = a)).
Proof.
  intros Hshape Hwf.
  exists (MkINDArray "c" (map Z.of_nat (shape a)) (buffer a)).
  split; [apply indarray_run|].
  split; [reflexivity|].
  split; [simpl; now rewrite Hshape|].
  split.
  - intros i j Hi Hj. unfold item2. rewrite Hshape. simpl.
    apply Nat.ltb_lt in Hi, Hj. now rewrite Hi, Hj.
  - intros o Hs Hd.
    exists (Ndarray (shape a) (as_common_type (buffer a))).
    split; [now apply output_array_rebuilt|].
    split; [exact Hshape|].
    split; [unfold well_formed, size in *; simpl; now rewrite length_map|].
    split.
    + intros i j. simpl. rewrite item2_fmap. now destruct a.
    + intros Hkind. rewrite (one_kind_as_common_type _ Hkind).
      now destruct a.
Qed.

Lemma indarray_roundtrip_witness :
  shape demo_array = [2; 3]%nat /\
  well_formed demo_array /\
  exists d,
    _indarray demo_array = Ok d /\
    ordering d = "c" /\
    ind_shape d = [2; 3] /\
    data d = ints [1; 2; 3; 4; 5; 6] /\
    (forall o, ind_shape o = ind_shape d -> data o = data d ->
               output_array o = Ok demo_array).
Proof.
  split; [reflexivity|]. split; [reflexivity|].
  destruct (indarray_roundtrip 2 3 demo_array eq_refl eq_refl)
    as (d & Hd & Hord & Hshp & Hrow & Hback).
  exists d. split; [exact Hd|]. split; [exact Hord|]. split; [exact Hshp|].
  split.
  - rewrite indarray_run in Hd. now injection Hd as <-.
  - intros o Hs Hdata.
    destruct (Hback o Hs Hdata) as (a' & Ha' & _ & _ & _ & Hsame).
    now rewrite Ha', (Hsame eq_refl).
Defined.

(** ** Running method bodies *)

Section Facts.

Context {T : Type}.
Context {scalars : Scalar T}.
Variable env : Server T.

Lemma bind_run {A B} (c : M A) (k : A -> M B) (w : World T) :
  (c ≫= k) w =
  match c w with
  | (Ok a, w') => k a w'
  | (Raise e, w') => (Raise e, w')
  | (Running, w') => (Running, w')
  end.
Proof. reflexivity. Qed.

Lemma getattr_run (v : value) (name : string) (w : World T) :
  getattr v name w =
  match attr w v name with
  | Some x => (Ok x, w)
  | None => (Raise AttributeError, w)
  end.
Proof. reflexivity. Qed.

Lemma getattr_ok (v x : value) (name : string) (w : World T) :
  attr w v name = Some x -> getattr v name w = (Ok x, w).
Proof. intros H. unfold getattr. now rewrite H. Qed.

Lemma attr_heap (w w' : World T) (v : value) (name : string) :
  heap w' = heap w -> attr w' v name = attr w v name.
Proof. intros H. unfold attr. now rewrite H. Qed.

Lemma attr_store_same (l : loc) (name : string) (x : value) (w : World T) :
  attr (store l name x w) (VRef l) name = Some x.
Proof.
  unfold attr, store. simpl. rewrite lookup_insert_eq. simpl.
  apply lookup_insert_eq.
Qed.

Lemma attr_store_other (l : loc) (name name' : string) (x : value)
      (w : World T) :
  name <> name' ->
  attr (store l name x w) (VRef l) name' = attr w (VRef l) name'.
Proof.
  intros Hne. unfold attr, store. simpl. rewrite lookup_insert_eq. simpl.
  rewrite lookup_insert_ne by exact Hne.
  destruct (heap w !! l); [reflexivity|apply lookup_empty].
Qed.

Lemma attr_store_elsewhere (l l' : loc) (name name' : string) (x : value)
      (w : World T) :
  l <> l' ->
  attr (store l name x w) (VRef l') name' = attr w (VRef l') name'.
Proof.
  intros Hne. unfold attr, store. simpl.
  now rewrite lookup_insert_ne by exact Hne.
Qed.

Lemma attr_None (w : World T) (name : string) : attr w VNone name = None.
Proof. reflexivity. Qed.

Lemma wired_heap (w w' : World T) (self dep_id md_id : value) :
  heap w' = heap w -> wired w self dep_id md_id -> wired w' self dep_id md_id.
Proof.
  intros H (skil & dep & md & H1 & H2 & H3 & H4 & H5 & H6 & H7).
  exists skil, dep, md. rewrite !(attr_heap w w') by exact H. tauto.
Qed.

Lemma has_printer_heap (w w' : World T) (self : value) :
  heap w' = heap w -> has_printer w self -> has_printer w' self.
Proof.
  intros H (skil & H1 & H2). exists skil.
  rewrite !(attr_heap w w') by exact H. tauto.
Qed.

(** With the attributes in place, a state change is one request. *)
Lemma state_change_run (self dep_id md_id : value) (s : string)
      (w : World T) :
  wired w self dep_id md_id ->
  state_change env self s w =
  (match state_of env (length (sent w)) with
   | Some st => Ok st
   | None => Raise ApiException
   end, send (ModelStateChange dep_id md_id s) w).
Proof.
  intros (skil & dep & md & H1 & H2 & H3 & H4 & H5 & _ & H7).
  unfold state_change.
  rewrite bind_run, (getattr_ok _ _ _ _ H1).
  rewrite bind_run, (getattr_ok _ _ _ _ H2).
  rewrite bind_run, (getattr_ok _ _ _ _ H3).
  rewrite bind_run, (getattr_ok _ _ _ _ H4).
  rewrite bind_run, (getattr_ok _ _ _ _ H5).
  rewrite bind_run, (getattr_ok _ _ _ _ H7).
  unfold model_state_change.
  now destruct (state_of env (length (sent w))).
Qed.

Lemma say_run (self : value) (msg : string) (w : World T) :
  has_printer w self ->
  say self msg w =
  (Ok tt, MkWorld (heap w) (sent w) (stdout w ++ [msg]) (slept w) (files w)
                  (events w ++ [Printed msg])).
Proof.
  intros (skil & H1 & H2). unfold say.
  rewrite bind_run, (getattr_ok _ _ _ _ H1).
  rewrite bind_run, (getattr_ok _ _ _ _ H2).
  reflexivity.
Qed.

(** ** Service.start and Service.stop *)

(** C5: when [model_deployment] is falsy, [start] prints its diagnostic
    and returns normally; no request is sent, and the heap of local
    objects, the clock and the files are as before. *)
Theorem start_without_deployment (fuel : nat) (self md : value)
        (w : World T) :
  attr w self "model_deployment" = Some md ->
  truthy md = false ->
  has_printer w self ->
  start env fuel self w =
  (Ok tt,
   MkWorld (heap w) (sent w)
           (stdout w
              ++ ["No model deployed yet, call 'deploy()' on a model first."])
           (slept w) (files w)
           (events w
              ++ [Printed
                    "No model deployed yet, call 'deploy()' on a model first."])).
Proof.
  intros Hmd Hfalsy Hprinter. unfold start.
  rewrite bind_run, (getattr_ok _ _ _ _ Hmd), Hfalsy. simpl.
  now apply say_run.
Qed.

(** C7: on a deployed service [stop] sends exactly one "stop" state
    change, and whatever state the server answers with, it returns [None]
    without looking at it. *)
Theorem stop_sends_one_request (self dep_id md_id : value) (w : World T) :
  wired w self dep_id md_id ->
  (stop env self w).2 = send (ModelStateChange dep_id md_id "stop") w /\
  (forall st, state_of env (length (sent w)) = Some st ->
              stop env self w =
              (Ok tt, send (ModelStateChange dep_id md_id "stop") w)).
Proof.
  intros Hw. unfold stop.
  rewrite bind_run, (state_change_run _ _ _ _ _ Hw).
  split.
  - now destruct (state_of env (length (sent w))).
  - intros st Hst. now rewrite Hst.
Qed.

(** C8: with [model_deployment] set to [None], [stop] raises
    [AttributeError] before any request is sent, while [start] on the same
    service only prints and returns. *)
Theorem stop_without_deployment_raises (self : value) (w : World T) :
  attr w self "model_deployment" = Some VNone ->
  stop env self w = (Raise AttributeError, w) /\
  (has_printer w self ->
   forall fuel, exists w',
     start env fuel self w = (Ok tt, w') /\ sent w' = sent w).
Proof.
  intros Hmd. split.
  - unfold stop, state_change.
    rewrite bind_run, bind_run, getattr_run.
    destruct (attr w self "skil") as [skil|]; [|reflexivity].
    rewrite bind_run, getattr_run.
    destruct (attr w skil "api") as [api|]; [|reflexivity].
    rewrite bind_run, getattr_run.
    destruct (attr w self "deployment") as [dep|]; [|reflexivity].
    rewrite bind_run, getattr_run.
    destruct (attr w dep "id") as [dep_id|]; [|reflexivity].
    rewrite bind_run, (getattr_ok _ _ _ _ Hmd).
    rewrite bind_run, getattr_run, attr_None. reflexivity.
  - intros Hp fuel. eexists. split.
    + unfold start. rewrite bind_run, (getattr_ok _ _ _ _ Hmd). simpl.
      now apply say_run.
    + reflexivity.
Qed.

(** ** The polling loop *)

(** Two worlds built field by field are equal. *)
Ltac world_eq :=
  simpl; rewrite <- ?app_assoc; simpl; f_equal; f_equal;
  try reflexivity; try lia.

Lemma start_loop_round (fuel : nat) (self dep_id md_id st : value)
      (w : World T) :
  wired w self dep_id md_id ->
  has_printer w self ->
  state_of env (length (sent w)) = Some st ->
  st <> VStr "started" ->
  start_loop env (S fuel) self w =
  start_loop env fuel self
             (after_polls (ModelStateChange dep_id md_id "start") 1 w).
Proof.
  intros Hw Hp Hst Hne. simpl start_loop.
  rewrite bind_run. unfold sleep at 1.
  set (w1 := MkWorld (heap w) (sent w) (stdout w) (slept w + 5) (files w)
                     (events w ++ [Slept 5])).
  assert (Hw1 : wired w1 self dep_id md_id) by now apply (wired_heap w).
  assert (Hp1 : has_printer w1 self) by now apply (has_printer_heap w).
  rewrite bind_run, (state_change_run _ _ _ _ _ Hw1). simpl sent.
  rewrite Hst. destruct (decide (st = VStr "started")) as [|_]; [done|].
  rewrite bind_run, say_run.
  - unfold after_polls, send, w1. world_eq.
  - now apply (has_printer_heap w).
Qed.

Lemma start_loop_started (self dep_id md_id : value) :
  forall (k fuel : nat) (w : World T),
    wired w self dep_id md_id ->
    has_printer w self ->
    (forall i, (i < k)%nat ->
               exists st, state_of env (length (sent w) + i) = Some st /\
                          st <> VStr "started") ->
    state_of env (length (sent w) + k) = Some (VStr "started") ->
    (k < fuel)%nat ->
    start_loop env fuel self w =
    (Ok tt,
     MkWorld (heap w)
             (sent w ++ replicate (S k) (ModelStateChange dep_id md_id "start"))
             (stdout w ++ replicate k ">>> Waiting for deployment..."
                ++ [">>> Model server started successfully!"])
             (slept w + 5 * Z.of_nat (S k) + 15)
             (files w)
             (events w
                ++ poll_rounds (ModelStateChange dep_id md_id "start") k
                ++ [Slept 5; Sent (ModelStateChange dep_id md_id "start");
                    Slept 15;
                    Printed ">>> Model server started successfully!"])).
Proof.
  induction k as [|k IH]; intros fuel w Hw Hp Hwait Hup Hfuel;
    (destruct fuel as [|fuel]; [lia|]).
  - rewrite Nat.add_0_r in Hup. simpl start_loop.
    rewrite bind_run. unfold sleep at 1.
    set (w1 := MkWorld (heap w) (sent w) (stdout w) (slept w + 5) (files w)
                     (events w ++ [Slept 5])).
    assert (Hw1 : wired w1 self dep_id md_id) by now apply (wired_heap w).
    rewrite bind_run, (state_change_run _ _ _ _ _ Hw1). simpl sent.
    rewrite Hup.
    destruct (decide (VStr "started" = VStr "started")) as [_|]; [|done].
    rewrite bind_run. unfold sleep. rewrite say_run.
    + unfold send, w1. world_eq.
    + now apply (has_printer_heap w).
  - destruct (Hwait 0%nat) as (st & Hst & Hne); [lia|].
    rewrite Nat.add_0_r in Hst.
    rewrite (start_loop_round fuel self dep_id md_id st w Hw Hp Hst Hne).
    rewrite IH.
    + unfold after_polls. world_eq.
    + now apply (wired_heap w).
    + now apply (has_printer_heap w).
    + intros i Hi. simpl. rewrite length_app. simpl.
      replace (length (sent w) + 1 + i)%nat
        with (length (sent w) + S i)%nat by lia.
      apply Hwait. lia.
    + simpl. rewrite length_app. simpl.
      now replace (length (sent w) + 1 + k)%nat
        with (length (sent w) + S k)%nat by lia.
    + lia.
Qed.

Lemma start_loop_running (self dep_id md_id : value) :
  forall (fuel : nat) (w : World T),
    wired w self dep_id md_id ->
    has_printer w self ->
    (forall i, exists st, state_of env (length (sent w) + i) = Some st /\
                          st <> VStr "started") ->
    start_loop env fuel self w =
    (Running, after_polls (ModelStateChange dep_id md_id "start") fuel w).
Proof.
  induction fuel as [|fuel IH]; intros w Hw Hp Hwait.
  - unfold after_polls. simpl. unfold out_of_fuel.
    rewrite !app_nil_r, Z.add_0_r. now destruct w.
  - destruct (Hwait 0%nat) as (st & Hst & Hne).
    rewrite Nat.add_0_r in Hst.
    rewrite (start_loop_round fuel self dep_id md_id st w Hw Hp Hst Hne).
    rewrite IH.
    + unfold after_polls. world_eq.
    + now apply (wired_heap w).
    + now apply (has_printer_heap w).
    + intros i. simpl. rewrite length_app. simpl.
      replace (length (sent w) + 1 + i)%nat
        with (length (sent w) + S i)%nat by lia.
      apply Hwait.
Qed.

(** C6, as the code has it: on a deployed service whose requests the
    server answers, [start] sends a "start" state change, announces it, and
    then polls, sleeping 5 seconds before every check.  If the first poll
    answered "started" is poll [k+1], [start] returns after [k+2] requests,
    [5(k+1)] seconds of polling and the 15 second settle delay, whatever
    [k] is, and what it did was, in this order: the request and its
    announcement, [k] rounds of sleep, check and report, then sleep, check,
    settle delay and the success message.  If every poll is answered with
    another state, [start] is still in its loop after any number of
    rounds. *)
Theorem start_polls_until_started (self dep_id md_id : value)
        (w : World T) :
  wired w self dep_id md_id ->
  has_printer w self ->
  is_Some (state_of env (length (sent w))) ->
  let req := ModelStateChange dep_id md_id "start" in
  let poll i := state_of env (length (sent w) + S i) in
  (forall k,
      (forall i, (i < k)%nat ->
                 exists st, poll i = Some st /\ st <> VStr "started") ->
      poll k = Some (VStr "started") ->
      forall fuel, (k < fuel)%nat ->
                   start env fuel self w = (Ok tt, started_world req k w)) /\
  ((forall i, exists st, poll i = Some st /\ st <> VStr "started") ->
   forall fuel,
     start env fuel self w =
     (Running, after_polls req fuel (start_requested req w))).
Proof.
  intros Hw Hp [st0 Hst0] req poll.
  assert (Hmd : exists md, attr w self "model_deployment" = Some md /\
                           truthy md = true).
  { destruct Hw as (? & ? & md & ? & ? & ? & ? & ? & ? & ?). eauto. }
  destruct Hmd as (md & Hmd & Htruthy).
  assert (Hhead : forall fuel,
             start env fuel self w =
             start_loop env fuel self (start_requested req w)).
  { intros fuel. unfold start.
    rewrite bind_run, (getattr_ok _ _ _ _ Hmd), Htruthy.
    change (negb true) with false. cbv iota.
    rewrite bind_run, (state_change_run _ _ _ _ _ Hw), Hst0.
    cbv beta iota.
    rewrite bind_run, say_run;
      [unfold start_requested, send; simpl; now rewrite <- app_assoc|].
    now apply (has_printer_heap w). }
  assert (Hw' : wired (start_requested req w) self dep_id md_id)
    by now apply (wired_heap w).
  assert (Hp' : has_printer (start_requested req w) self)
    by now apply (has_printer_heap w).
  assert (Hlen : forall i,
             (length (sent (start_requested req w)) + i
              = length (sent w) + S i)%nat).
  { intros i. simpl. rewrite length_app. simpl. lia. }
  split.
  - intros k Hwait Hup fuel Hfuel. rewrite Hhead.
    rewrite (start_loop_started self dep_id md_id k fuel _ Hw' Hp').
    + unfold started_world, start_requested. simpl.
      rewrite <- !app_assoc. simpl.
      replace (k + 2)%nat with (S (S k)) by lia.
      replace (k + 1)%nat with (S k) by lia. reflexivity.
    + intros i Hi. rewrite Hlen. now apply Hwait.
    + now rewrite Hlen.
    + exact Hfuel.
  - intros Hwait fuel. rewrite Hhead.
    apply (start_loop_running self dep_id md_id fuel _ Hw' Hp').
    intros i. rewrite Hlen. apply Hwait.
Qed.

(** ** Service.detect_objects *)

(** One attribute read of a method body: either it raises and the body
    ends in the same world, or the body goes on. *)
Ltac read_attr :=
  rewrite bind_run, getattr_run;
  match goal with
  | |- context [attr ?w ?v ?n] => destruct (attr w v n)
  end.

(** C4, as the code has it: when the upload request of [detect_objects] is
    sent and comes back with a response, whatever its body, and the
    operating system lets the file be removed, no regular file is left at
    [temp_path]. *)
Theorem detect_objects_removes_file_after_response
        {float Json : Type} (str_float : float -> string)
        (json_loads : string -> option Json)
        (self : value) (image : ndarray T) (threshold : float)
        (needs_preprocessing : bool) (temp_path : string) (w : World T) :
  sent (detect_objects env str_float json_loads self image threshold
                       needs_preprocessing temp_path w).2 <> sent w ->
  is_Some (post_content env (length (sent w))) ->
  removable env temp_path = true ->
  temp_path ∉ files (detect_objects env str_float json_loads self image
                                    threshold needs_preprocessing temp_path
                                    w).2.
Proof.
  set (P := fun x : outcome Json * World T =>
              sent x.2 <> sent w ->
              is_Some (post_content env (length (sent w))) ->
              removable env temp_path = true ->
              temp_path ∉ files x.2).
  change (P (detect_objects env str_float json_loads self image threshold
                            needs_preprocessing temp_path w)).
  assert (Hraise : forall r w', sent w' = sent w -> P (r, w')).
  { intros r w' Hs Hsent. now contradiction Hsent. }
  unfold detect_objects.
  destruct (cv2_installed env); cbn [negb]; [|now apply Hraise].
  rewrite bind_run. unfold imwrite at 1.
  destruct (imwrite_result env temp_path image); [| |now apply Hraise].
  all: do 10 (read_attr; [|now apply Hraise]).
  all: rewrite bind_run; unfold open_rb at 1; simpl files.
  all: match goal with
       | |- context [decide (?x ∈ ?X)] =>
           destruct (decide (x ∈ X)) as [Hin|Hout]
       end;
    [|destruct (entry_at env temp_path); [now apply Hraise..|]].
  all: (destruct (readable env temp_path); [|now apply Hraise]).
  all: do 4 (read_attr; [|now apply Hraise]).
  all: rewrite bind_run; unfold requests_post at 1; simpl sent.
  all: intros _ [body Hbody] Hrm; rewrite Hbody.
  all: rewrite bind_run; unfold remove_if_isfile at 1; simpl files.
  all: match goal with
       | |- context [decide (?x ∈ ?X)] =>
           destruct (decide (x ∈ X)) as [Hin'|Hout']
       end.
  all: try rewrite Hrm.
  all: destruct (json_loads body); simpl;
    first [ assumption
          | apply not_elem_of_difference; right; now apply elem_of_singleton ].
Qed.

(** ** Resource.delete *)

Lemma Resource_init_run (l : loc) (skil : value) (w : World T) :
  exists w',
    Resource_init (VRef l) skil w = (Ok tt, w') /\
    attr w' (VRef l) "resource_id" = Some VNone /\
    attr w' (VRef l) "skil" = Some skil /\
    sent w' = sent w.
Proof.
  eexists. split; [reflexivity|].
  rewrite attr_store_same, attr_store_other by discriminate.
  rewrite attr_store_same. auto.
Qed.

(** C10: while [resource_id] is [None], [delete] sends nothing and changes
    nothing, locally or remotely; and [None] is what the constructor leaves
    there, so deleting a freshly constructed resource is such a call. *)
Theorem delete_without_id_is_noop :
  (forall (self : value) (w : World T),
      attr w self "resource_id" = Some VNone ->
      delete env self w = (Ok tt, w)) /\
  (forall (l : loc) (skil : value) (w : World T),
      exists w',
        Resource_init (VRef l) skil w = (Ok tt, w') /\
        attr w' (VRef l) "resource_id" = Some VNone /\
        delete env (VRef l) w' = (Ok tt, w')).
Proof.
  assert (Hnoop : forall (self : value) (w : World T),
             attr w self "resource_id" = Some VNone ->
             delete env self w = (Ok tt, w)).
  { intros self w Hid. unfold delete.
    now rewrite bind_run, (getattr_ok _ _ _ _ Hid). }
  split; [exact Hnoop|].
  intros l skil w.
  destruct (Resource_init_run l skil w) as (w' & Hinit & Hid & _).
  exists w'. auto.
Qed.

(** ** Service.predict and Service.predict_single *)

Lemma comprehension_indarray (l : list (ndarray T)) :
  comprehension _indarray l = Ok (inputs_of (Arrs l)).
Proof.
  induction l as [|a l IH]; [reflexivity|].
  cbn [comprehension]. now rewrite indarray_run, IH.
Qed.

Lemma comprehension_indarray_after (g : ndarray T -> ndarray T)
      (l : list (ndarray T)) :
  comprehension (fun x => _indarray (g x)) l
  = Ok (inputs_of (Arrs (map g l))).
Proof.
  induction l as [|a l IH]; [reflexivity|].
  cbn [comprehension]. now rewrite indarray_run, IH.
Qed.

Lemma comprehension_lookup {A B} (f : A -> outcome B) :
  forall (l : list A) (ys : list B),
    comprehension f l = Ok ys ->
    length ys = length l /\
    forall i x, l !! i = Some x ->
                exists y, ys !! i = Some y /\ f x = Ok y.
Proof.
  induction l as [|x l IH]; intros ys H; simpl in H.
  - injection H as <-. split; [reflexivity|]. intros i x Hx. discriminate.
  - destruct (f x) as [y| |] eqn:Hfx; try discriminate. simpl in H.
    destruct (comprehension f l) as [ys'| |]; try discriminate.
    simpl in H. injection H as <-.
    destruct (IH ys' eq_refl) as [Hlen Hnth].
    split; [simpl; now rewrite Hlen|].
    intros [|i] x' Hx'; simpl in *.
    + injection Hx' as <-. eauto.
    + now apply Hnth.
Qed.

Lemma predict_run (self : value) (data : pydata T) (version : value)
      (w : World T) :
  predict env self data version w =
  match classification_outputs env self version (inputs_of data) w with
  | (Ok outs, w1) =>
      match comprehension output_array outs with
      | Ok [o] => (Ok (Arr o), w1)
      | Ok arrays => (Ok (Arrs arrays), w1)
      | Raise e => (Raise e, w1)
      | Running => (Running, w1)
      end
  | (Raise e, w1) => (Raise e, w1)
  | (Running, w1) => (Running, w1)
  end.
Proof.
  unfold predict. rewrite bind_run.
  assert (Hin : (match data with
                 | Arr a => obind (_indarray a) (fun x => Ok [x])
                 | Arrs l => comprehension _indarray l
                 end) = Ok (inputs_of data)).
  { destruct data as [a|l].
    - now rewrite indarray_run.
    - apply comprehension_indarray. }
  unfold lift at 1. rewrite Hin, bind_run.
  destruct (classification_outputs env self version (inputs_of data) w)
    as [[outs|e|] w1]; try reflexivity.
  rewrite bind_run. unfold lift.
  destruct (comprehension output_array outs) as [[|o [|o' arrays]]|e|];
    reflexivity.
Qed.

(** The half of C2 that [predict] keeps: one output descriptor gives the
    array itself, several give the list of arrays in response order. *)
Lemma predict_one_or_list (self : value) (data : pydata T)
      (version : value) (w w1 : World T) (outs : list (INDArray T))
      (arrays : list (ndarray T)) :
  classification_outputs env self version (inputs_of data) w
  = (Ok outs, w1) ->
  comprehension output_array outs = Ok arrays ->
  (length outs = 1%nat ->
   exists a, arrays = [a] /\
             predict env self data version w = (Ok (Arr a), w1)) /\
  ((1 < length outs)%nat ->
   predict env self data version w = (Ok (Arrs arrays), w1) /\
   length arrays = length outs /\
   forall i o, outs !! i = Some o ->
               exists a, arrays !! i = Some a /\ output_array o = Ok a).
Proof.
  intros Hreq Hout. rewrite predict_run, Hreq, Hout.
  destruct (comprehension_lookup _ _ _ Hout) as [Hlen Hnth].
  split.
  - intros H1. rewrite H1 in Hlen.
    destruct arrays as [|a [|a' arrays]]; try discriminate. eauto.
  - intros H1. rewrite <- Hlen in H1.
    destruct arrays as [|a [|a' arrays]]; simpl in H1; try lia. auto.
Qed.

Lemma classification_outputs_heap (self version : value)
      (inputs : list (INDArray T)) (w : World T) :
  heap (classification_outputs env self version inputs w).2 = heap w.
Proof.
  unfold classification_outputs.
  do 5 (read_attr; [|reflexivity]).
  rewrite bind_run. unfold fresh_uuid at 1. unfold multipredict.
  match goal with
  | |- context [match ?api with VApi => _ | _ => _ end] => destruct api
  end; try reflexivity.
  now destruct (outputs_of env (length (sent w))).
Qed.

Lemma predict_heap (self : value) (data : pydata T) (version : value)
      (w : World T) :
  heap (predict env self data version w).2 = heap w.
Proof.
  rewrite predict_run.
  pose proof (classification_outputs_heap self version (inputs_of data) w)
    as Hh.
  destruct (classification_outputs env self version (inputs_of data) w)
    as [[outs|e|] w1]; try exact Hh.
  destruct (comprehension output_array outs) as [[|o [|o' arrays]]|e|];
    exact Hh.
Qed.

Lemma predict_single_run (self : value) (data : pydata T) (version : value)
      (w : World T) :
  predict_single env self data version w =
  match classification_outputs
          env self version
          (inputs_of (match data with
                      | Arr x => Arr (expand_dims0 x)
                      | Arrs l => Arrs (map expand_dims0 l)
                      end)) w with
  | (Ok [], w1) => (Raise IndexError, w1)
  | (Ok (output :: _), w1) =>
      match output_array output with
      | Ok a => (Ok (Arr a), w1)
      | Raise e => (Raise e, w1)
      | Running => (Running, w1)
      end
  | (Raise e, w1) => (Raise e, w1)
  | (Running, w1) => (Running, w1)
  end.
Proof.
  unfold predict_single. rewrite bind_run.
  assert (Hin : (match data with
                 | Arr x => obind (_indarray (expand_dims0 x))
                                  (fun x => Ok [x])
                 | Arrs l =>
                     comprehension (fun x => _indarray (expand_dims0 x)) l
                 end)
                = Ok (inputs_of (match data with
                                 | Arr x => Arr (expand_dims0 x)
                                 | Arrs l => Arrs (map expand_dims0 l)
                                 end))).
  { destruct data as [x|l].
    - now rewrite indarray_run.
    - apply comprehension_indarray_after. }
  unfold lift at 1. rewrite Hin, bind_run.
  match goal with
  | |- context [classification_outputs ?e ?s ?v ?i ?w] =>
      destruct (classification_outputs e s v i w) as [[[|o rest]|e'|] w1]
  end; reflexivity.
Qed.

Lemma predict_single_heap (self : value) (data : pydata T)
      (version : value) (w : World T) :
  heap (predict_single env self data version w).2 = heap w.
Proof.
  rewrite predict_single_run.
  match goal with
  | |- context [classification_outputs ?e ?s ?v ?i ?w] =>
      pose proof (classification_outputs_heap s v i w) as Hh;
      destruct (classification_outputs e s v i w) as [[[|o rest]|e'|] w1]
  end; try exact Hh.
  destruct (output_array o); exact Hh.
Qed.

(** [predict_single] rebuilds the first output and drops the others. *)
Lemma predict_single_first (self : value) (data : pydata T)
      (version : value) (w w1 : World T) (o : INDArray T)
      (rest : list (INDArray T)) (a : ndarray T) :
  classification_outputs env self version
                         (inputs_of (match data with
                                     | Arr x => Arr (expand_dims0 x)
                                     | Arrs l => Arrs (map expand_dims0 l)
                                     end)) w
  = (Ok (o :: rest), w1) ->
  output_array o = Ok a ->
  predict_single env self data version w = (Ok (Arr a), w1).
Proof.
  intros Hreq Hout. now rewrite predict_single_run, Hreq, Hout.
Qed.

(** ** Pipeline *)

Section Stages.

Context {Data : Type}.
Variable call_predict : value -> Data -> value -> M (T := T) Data.
Variable call_predict_single : value -> Data -> value -> M (T := T) Data.

Lemma chain_run (call : value -> Data -> value -> M Data)
      (self ts : value) (data : Data) (version : value) (w : World T) :
  attr w self "transform_service" = Some ts ->
  truthy ts = true ->
  (transform_service ← getattr self "transform_service";
   data ← (if truthy transform_service then
             transform_service ← getattr self "transform_service";
             call transform_service data version
           else mret data);
   model_service ← getattr self "model_service";
   call model_service data version) w
  = (transformed ← call ts data version;
     model_service ← getattr self "model_service";
     call model_service transformed version) w.
Proof.
  intros Hts Htruthy.
  rewrite bind_run, (getattr_ok _ _ _ _ Hts), Htruthy.
  rewrite !bind_run, (getattr_ok _ _ _ _ Hts). reflexivity.
Qed.

Lemma chain_fixed_model (call : value -> Data -> value -> M Data)
      (self ts ms : value) (data : Data) (version : value)
      (w : World T) :
  (forall d w1, call ts data version w = (Ok d, w1) ->
                attr w1 self "model_service" = Some ms) ->
  (transformed ← call ts data version;
   model_service ← getattr self "model_service";
   call model_service transformed version) w
  = (transformed ← call ts data version;
     call ms transformed version) w.
Proof.
  intros Hms. rewrite !bind_run.
  destruct (call ts data version w) as [[d|e|] w1] eqn:Hcall;
    try reflexivity.
  now rewrite bind_run, (getattr_ok _ _ _ _ (Hms d w1 eq_refl)).
Qed.

(** C3: with a transform stage present, [Pipeline.predict] is the model
    stage's [predict] applied to what the transform stage's [predict]
    returns for the input, and [Pipeline.predict_single] chains the two
    [predict_single] the same way; an exception of the transform stage
    ends the call before the model stage is asked. *)
Theorem Pipeline_predict_chains (self ts ms : value) (data : Data)
        (version : value) (w : World T) :
  attr w self "transform_service" = Some ts ->
  truthy ts = true ->
  ((forall d w1, call_predict ts data version w = (Ok d, w1) ->
                 attr w1 self "model_service" = Some ms) ->
   Pipeline_predict call_predict self data version w
   = (transformed ← call_predict ts data version;
      call_predict ms transformed version) w) /\
  ((forall d w1, call_predict_single ts data version w = (Ok d, w1) ->
                 attr w1 self "model_service" = Some ms) ->
   Pipeline_predict_single call_predict_single self data version w
   = (transformed ← call_predict_single ts data version;
      call_predict_single ms transformed version) w) /\
  (forall e w1, call_predict ts data version w = (Raise e, w1) ->
                Pipeline_predict call_predict self data version w
                = (Raise e, w1)).
Proof.
  intros Hts Htruthy. split; [|split].
  - intros Hms. unfold Pipeline_predict.
    rewrite (chain_run call_predict self ts data version w Hts Htruthy).
    now apply chain_fixed_model.
  - intros Hms. unfold Pipeline_predict_single.
    rewrite (chain_run call_predict_single self ts data version w
                       Hts Htruthy).
    now apply chain_fixed_model.
  - intros e w1 Hraise. unfold Pipeline_predict.
    rewrite (chain_run call_predict self ts data version w Hts Htruthy).
    now rewrite bind_run, Hraise.
Qed.

End Stages.

Section Construction.

Variable deploy : value -> deploy_args -> M (T := T) value.

(** What the call of [Service.__init__] inside [Pipeline.__init__]
    leaves behind when it returns. *)
Lemma Pipeline_super_init_run (l : loc) (model deployment : value)
      (w : World T) :
  match Pipeline_super_init (VRef l) model deployment w with
  | (Ok _, w0) =>
      exists model_skil,
        attr w model "skil" = Some model_skil /\
        attr w0 (VRef l) "skil" = Some (VRef l) /\
        attr w0 (VRef l) "model" = Some model_skil /\
        attr w0 (VRef l) "deployment" = Some deployment /\
        attr w0 (VRef l) "model_deployment" = Some VNone
  | (Raise e, _) => e = AttributeError
  | (Running, _) => False
  end.
Proof.
  unfold Pipeline_super_init, Service_init.
  rewrite bind_run, getattr_run.
  destruct (attr w model "skil") as [model_skil|]; [|reflexivity].
  rewrite bind_run. unfold setattr at 1. cbv iota.
  rewrite bind_run. unfold setattr at 1. cbv iota.
  set (w2 := store l "model" model_skil (store l "skil" (VRef l) w)).
  assert (Hmodel : attr w2 (VRef l) "model" = Some model_skil)
    by apply attr_store_same.
  rewrite bind_run, (getattr_ok _ _ _ _ Hmodel).
  rewrite bind_run, getattr_run.
  destruct (attr w2 model_skil "name") as [name|]; [|reflexivity].
  rewrite bind_run. unfold setattr at 1. cbv iota.
  rewrite bind_run. unfold setattr at 1. cbv iota.
  unfold setattr.
  exists model_skil. split; [reflexivity|].
  repeat split.
  - rewrite !attr_store_other by discriminate. unfold w2.
    rewrite attr_store_other by discriminate. apply attr_store_same.
  - now rewrite !attr_store_other by discriminate.
  - apply attr_store_same.
  - rewrite attr_store_other by discriminate. apply attr_store_same.
Qed.

(** C9: with [transform] left at [None], [Pipeline.__init__] never
    returns an instance.  It ends in an exception unless [model.deploy]
    itself never returns, and that exception is the [AttributeError] of
    [None.deploy] whenever the steps before it return.  When the call of
    [Service.__init__] inside it returns, the new object has itself as
    [skil], [model.skil] as [model], the deployment as [deployment] and
    [None] as [model_deployment]. *)
Theorem Pipeline_without_transform_is_never_built
        (l : loc) (deployment model : value)
        (start_server scale input_names output_names verbose : value)
        (w : World T) :
  let self := VRef l in
  let args := DeployArgs deployment start_server scale input_names
                         output_names verbose in
  let run := Pipeline_init deploy self deployment model VNone start_server
                           scale input_names output_names verbose w in
  (forall u, run.1 <> Ok u) /\
  ((exists e, run.1 = Raise e) \/
   (exists w0, (deploy model args w0).1 = Running)) /\
  (forall w0 model_service w1,
      Pipeline_super_init self model deployment w = (Ok tt, w0) ->
      call_deploy deploy model args w0 = (Ok model_service, w1) ->
      run = (Raise AttributeError,
             store l "model_service" model_service w1)) /\
  (forall w0,
      Pipeline_super_init self model deployment w = (Ok tt, w0) ->
      attr w0 self "skil" = Some self /\
      attr w0 self "model" = attr w model "skil" /\
      attr w0 self "deployment" = Some deployment /\
      attr w0 self "model_deployment" = Some VNone).
Proof.
  intros self args run.
  pose proof (Pipeline_super_init_run l model deployment w) as Hsuper.
  assert (Hrun : run =
            match Pipeline_super_init self model deployment w with
            | (Ok _, w0) =>
                match call_deploy deploy model args w0 with
                | (Ok ms, w1) =>
                    (Raise AttributeError, store l "model_service" ms w1)
                | (Raise e, w1) => (Raise e, w1)
                | (Running, w1) => (Running, w1)
                end
            | (Raise e, w0) => (Raise e, w0)
            | (Running, w0) => (Running, w0)
            end).
  { unfold run, Pipeline_init. rewrite bind_run.
    destruct (Pipeline_super_init self model deployment w)
      as [[u|e|] w0]; reflexivity. }
  fold self in Hsuper.
  split; [|split; [|split]].
  - intros u. rewrite Hrun.
    destruct (Pipeline_super_init self model deployment w)
      as [[u0|e|] w0]; try discriminate.
    destruct (call_deploy deploy model args w0) as [[ms|e|] w1];
      discriminate.
  - rewrite Hrun.
    destruct (Pipeline_super_init self model deployment w)
      as [[u0|e|] w0]; [|left; eauto|contradiction].
    destruct (call_deploy deploy model args w0) as [[ms|e|] w1] eqn:Hd;
      [left; eauto|left; eauto|].
    right. exists w0. unfold call_deploy in Hd.
    destruct model; try discriminate. now rewrite Hd.
  - intros w0 ms w1 H0 H1. now rewrite Hrun, H0, H1.
  - intros w0 H0. rewrite H0 in Hsuper.
    destruct Hsuper as (model_skil & Hskil & H1 & H2 & H3 & H4).
    rewrite Hskil. auto.
Qed.

End Construction.

End Facts.

(** * The theorems at work on the demo deployment *)

Lemma demo_wired :
  wired (demo_world (VRef 4)) (VRef 6) (VStr "0") (VStr "42").
Proof.
  exists (VRef 1), (VRef 3), (VRef 4).
  repeat split; vm_compute; reflexivity.
Defined.

Lemma demo_has_printer (md : value) : has_printer (demo_world md) (VRef 6).
Proof. exists (VRef 1). split; vm_compute; reflexivity. Defined.

Lemma start_without_deployment_witness :
  attr (demo_world VNone) (VRef 6) "model_deployment" = Some VNone /\
  truthy VNone = false /\
  has_printer (demo_world VNone) (VRef 6) /\
  start (demo_server 0 [] true) 3 (VRef 6) (demo_world VNone) =
  (Ok tt,
   MkWorld (demo_heap VNone) []
           ["No model deployed yet, call 'deploy()' on a model first."]
           0 ∅
           [Printed
              "No model deployed yet, call 'deploy()' on a model first."]).
Proof.
  split; [vm_compute; reflexivity|].
  split; [reflexivity|].
  split; [apply demo_has_printer|].
  apply (start_without_deployment (demo_server 0 [] true) 3 (VRef 6) VNone
                                  (demo_world VNone)).
  - vm_compute; reflexivity.
  - reflexivity.
  - apply demo_has_printer.
Defined.

(** C6 fails as stated: a server that answers "starting" twice and then
    fails a poll never reports "started", yet [start] ends, with the
    [ApiException] of that poll, after three requests and ten seconds. *)
Lemma start_ends_without_started :
  let env := failing_server 2 Written true in
  let req := ModelStateChange (VStr "0") (VStr "42") "start" in
  (forall i, state_of env i <> Some (VStr "started")) /\
  forall fuel,
    (1 < fuel)%nat ->
    start env fuel (VRef 6) (demo_world (VRef 4))
    = (Raise ApiException,
       MkWorld (demo_heap (VRef 4)) [req; req; req]
               [">>> Starting to serve model...";
                ">>> Waiting for deployment..."]
               10 ∅
               [Sent req; Printed ">>> Starting to serve model...";
                Slept 5; Sent req; Printed ">>> Waiting for deployment...";
                Slept 5; Sent req]).
Proof.
  intros env req. split.
  - intros i. simpl. destruct (i =? 2)%nat; discriminate.
  - intros [|[|fuel]] Hfuel; [lia|lia|]. vm_compute. reflexivity.
Qed.

Lemma start_polls_until_started_witness :
  let req := ModelStateChange (VStr "0") (VStr "42") "start" in
  wired (demo_world (VRef 4)) (VRef 6) (VStr "0") (VStr "42") /\
  has_printer (demo_world (VRef 4)) (VRef 6) /\
  start (demo_server 3 [] true) 5 (VRef 6) (demo_world (VRef 4)) =
  (Ok tt,
   MkWorld (demo_heap (VRef 4)) [req; req; req; req]
           [">>> Starting to serve model...";
            ">>> Waiting for deployment...";
            ">>> Waiting for deployment...";
            ">>> Model server started successfully!"]
           30 ∅
           [Sent req; Printed ">>> Starting to serve model...";
            Slept 5; Sent req; Printed ">>> Waiting for deployment...";
            Slept 5; Sent req; Printed ">>> Waiting for deployment...";
            Slept 5; Sent req; Slept 15;
            Printed ">>> Model server started successfully!"]) /\
  (forall fuel,
      start stuck_server fuel (VRef 6) (demo_world (VRef 4)) =
      (Running,
       after_polls req fuel (start_requested req (demo_world (VRef 4))))).
Proof.
  intros req.
  split; [apply demo_wired|].
  split; [apply demo_has_printer|].
  split.
  - pose proof (start_polls_until_started
                  (demo_server 3 [] true) (VRef 6) (VStr "0") (VStr "42")
                  (demo_world (VRef 4)) demo_wired
                  (demo_has_printer (VRef 4))
                  (ex_intro _ (VStr "starting") eq_refl)) as H.
    cbv zeta in H. destruct H as [H _].
    apply (H 2%nat); [|reflexivity|lia].
    intros [|[|i]] Hi; [| |lia];
      (exists (VStr "starting"); split; [reflexivity|discriminate]).
  - pose proof (start_polls_until_started
                  stuck_server (VRef 6) (VStr "0") (VStr "42")
                  (demo_world (VRef 4)) demo_wired
                  (demo_has_printer (VRef 4))
                  (ex_intro _ (VStr "starting") eq_refl)) as H.
    cbv zeta in H. destruct H as [_ H].
    apply H. intros i.
    exists (VStr "starting"); split; [reflexivity|discriminate].
Defined.

Lemma stop_sends_one_request_witness :
  wired (demo_world (VRef 4)) (VRef 6) (VStr "0") (VStr "42") /\
  stop (demo_server 0 [] true) (VRef 6) (demo_world (VRef 4)) =
  (Ok tt,
   MkWorld (demo_heap (VRef 4))
           [ModelStateChange (VStr "0") (VStr "42") "stop"] [] 0 ∅
           [Sent (ModelStateChange (VStr "0") (VStr "42") "stop")]).
Proof.
  split; [apply demo_wired|].
  apply (proj2 (stop_sends_one_request
                  (demo_server 0 [] true) (VRef 6) (VStr "0") (VStr "42")
                  (demo_world (VRef 4)) demo_wired)
               (VStr "started")).
  reflexivity.
Defined.

Lemma stop_without_deployment_raises_witness :
  attr (demo_world VNone) (VRef 6) "model_deployment" = Some VNone /\
  stop (demo_server 0 [] true) (VRef 6) (demo_world VNone) =
  (Raise AttributeError, demo_world VNone).
Proof.
  split; [vm_compute; reflexivity|].
  apply (stop_without_deployment_raises (demo_server 0 [] true) (VRef 6)
                                        (demo_world VNone)).
  vm_compute; reflexivity.
Defined.

Lemma delete_without_id_is_noop_witness :
  attr (demo_world VNone) (VRef 9) "resource_id" = Some VNone /\
  delete (demo_server 0 [] true) (VRef 9) (demo_world VNone) =
  (Ok tt, demo_world VNone).
Proof.
  split; [vm_compute; reflexivity|].
  apply (proj1 (delete_without_id_is_noop (demo_server 0 [] true))).
  vm_compute; reflexivity.
Defined.

(** C2 fails for [predict_single]: on a response with two output
    descriptors it returns the first array alone, where its docstring and
    [predict] (second part, same request) have the list of both. *)
Theorem predict_single_drops_other_outputs :
  let env := demo_server 0 demo_outputs true in
  let w := demo_world (VRef 4) in
  (predict_single env (VRef 6) (Arr (Ndarray [2]%nat (ints [1; 2])))
                  (VStr "default") w).1
  = Ok (Arr (Ndarray [1; 2]%nat (ints [7; 8]))) /\
  (predict env (VRef 6) (Arr (Ndarray [1; 2]%nat (ints [1; 2])))
           (VStr "default") w).1
  = Ok (Arrs [Ndarray [1; 2]%nat (ints [7; 8]);
              Ndarray [2; 1]%nat (ints [9; 10])]).
Proof. split; vm_compute; reflexivity. Qed.

Lemma Pipeline_predict_chains_witness :
  let env := demo_server 0 [MkINDArray "c" [1; 2] (ints [7; 8])] true in
  let w := demo_world (VRef 4) in
  let data := Arr (Ndarray [1; 2]%nat (ints [1; 2])) in
  attr w (VRef 7) "transform_service" = Some (VRef 8) /\
  truthy (VRef 8) = true /\
  Pipeline_predict (predict env) (VRef 7) data (VStr "default") w
  = (transformed ← predict env (VRef 8) data (VStr "default");
     predict env (VRef 6) transformed (VStr "default")) w /\
  Pipeline_predict_single (predict_single env) (VRef 7) data (VStr "default") w
  = (transformed ← predict_single env (VRef 8) data (VStr "default");
     predict_single env (VRef 6) transformed (VStr "default")) w.
Proof.
  intros env w data.
  assert (Hts : attr w (VRef 7) "transform_service" = Some (VRef 8))
    by (vm_compute; reflexivity).
  split; [exact Hts|]. split; [reflexivity|].
  pose proof (Pipeline_predict_chains
                (predict env) (predict_single env) (VRef 7) (VRef 8) (VRef 6)
                data (VStr "default") w Hts eq_refl) as (H1 & H2 & _).
  split.
  - apply H1. intros d w1 Hrun.
    rewrite (attr_heap w w1).
    + vm_compute; reflexivity.
    + pose proof (predict_heap env (VRef 8) data (VStr "default") w) as Hh.
      now rewrite Hrun in Hh.
  - apply H2. intros d w1 Hrun.
    rewrite (attr_heap w w1).
    + vm_compute; reflexivity.
    + pose proof (predict_single_heap env (VRef 8) data (VStr "default") w)
        as Hh.
      now rewrite Hrun in Hh.
Defined.

(** C4 fails as stated: when the upload raises, [detect_objects] ends with
    that exception and the image it wrote is still at [temp_path]. *)
Lemma detect_objects_leaves_file_when_upload_raises :
  let run := detect_objects (demo_server 0 [] false) (fun s : string => s)
                            (fun s : string => Some s) (VRef 6) demo_array
                            "0.5" false "temp.jpg" (demo_world (VRef 4)) in
  run.1 = Raise ConnectionError /\ "temp.jpg" ∈ files run.2.
Proof.
  split; [vm_compute; reflexivity|].
  refine (bool_decide_unpack _ _). vm_compute. exact I.
Qed.

Lemma detect_objects_removes_file_after_response_witness :
  let run := detect_objects (demo_server 0 [] true) (fun s : string => s)
                            (fun s : string => Some s) (VRef 6) demo_array
                            "0.5" false "temp.jpg" (demo_world (VRef 4)) in
  sent run.2 <> sent (demo_world (VRef 4)) /\
  is_Some (post_content (demo_server 0 [] true)
                        (length (sent (demo_world (VRef 4))))) /\
  removable (demo_server 0 [] true) "temp.jpg" = true /\
  run.1 = Ok "{}" /\
  "temp.jpg" ∉ files run.2.
Proof.
  intros run.
  assert (Hsent : sent run.2 <> sent (demo_world (VRef 4)))
    by (vm_compute; discriminate).
  assert (Hresp : is_Some (post_content (demo_server 0 [] true)
                             (length (sent (demo_world (VRef 4))))))
    by (eexists; reflexivity).
  split; [exact Hsent|]. split; [exact Hresp|]. split; [reflexivity|].
  split; [vm_compute; reflexivity|].
  exact (detect_objects_removes_file_after_response
           (demo_server 0 [] true) (fun s : string => s)
           (fun s : string => Some s) (VRef 6) demo_array "0.5" false
           "temp.jpg" (demo_world (VRef 4)) Hsent Hresp eq_refl).
Defined.

Lemma Pipeline_without_transform_is_never_built_witness :
  let w := store 1%positive "name" (VStr "server") (demo_world (VRef 4)) in
  let run := Pipeline_init demo_deploy (VRef 10) (VRef 3) (VRef 2) VNone
                           (VBool true) (VInt 1) VNone VNone (VBool true) w in
  run.1 = Raise AttributeError /\
  attr run.2 (VRef 10) "skil" = Some (VRef 10) /\
  attr run.2 (VRef 10) "model" = Some (VRef 1) /\
  attr run.2 (VRef 10) "model_service" = Some (VRef 6) /\
  attr run.2 (VRef 10) "transform_service" = None.
Proof.
  intros w run.
  pose proof (Pipeline_without_transform_is_never_built
                demo_deploy 10%positive (VRef 3) (VRef 2)
                (VBool true) (VInt 1) VNone VNone (VBool true) w)
    as (_ & _ & Hraise & Hfields).
  set (w0 := (Pipeline_super_init (VRef 10) (VRef 2) (VRef 3) w).2).
  assert (Hsuper : Pipeline_super_init (VRef 10) (VRef 2) (VRef 3) w
                   = (Ok tt, w0)) by (vm_compute; reflexivity).
  specialize (Hraise w0 (VRef 6) w0 Hsuper eq_refl).
  destruct (Hfields w0 Hsuper) as (Hskil & Hmodel & _ & _).
  fold run in Hraise. rewrite Hraise. cbn [fst snd].
  split; [reflexivity|].
  split; [rewrite attr_store_other by discriminate; exact Hskil|].
  split.
  { rewrite attr_store_other by discriminate. rewrite Hmodel.
    vm_compute; reflexivity. }
  split; [apply attr_store_same|].
  rewrite attr_store_other by discriminate. vm_compute; reflexivity.
Defined.

(** * More of the module *)

(** ** CSV records *)

Section Csv.

Import TransformCsvService.

Lemma append_cons (c : Ascii.ascii) (s t : string) :
  String c s +:+ t = String c (s +:+ t).
Proof. reflexivity. Qed.

Lemma append_empty_r (s : string) : s +:+ "" = s.
Proof.
  induction s as [|c s IH]; [reflexivity|]. now rewrite append_cons, IH.
Qed.

Lemma append_assoc (s1 s2 s3 : string) :
  (s1 +:+ s2) +:+ s3 = s1 +:+ (s2 +:+ s3).
Proof.
  induction s1 as [|c s1 IH]; [reflexivity|]. now rewrite !append_cons, IH.
Qed.

Lemma length_append (s1 s2 : string) :
  String.length (s1 +:+ s2) = (String.length s1 + String.length s2)%nat.
Proof.
  induction s1 as [|c s1 IH]; [reflexivity|].
  rewrite append_cons. simpl. now rewrite IH.
Qed.

Lemma prefix_split (sep : string) :
  forall s, String.prefix sep s = true -> exists rest, s = sep +:+ rest.
Proof.
  induction sep as [|c sep IH]; intros s H.
  - exists s. reflexivity.
  - destruct s as [|c' s]; simpl in H; [discriminate|].
    destruct (Ascii.ascii_dec c c') as [->|]; [|discriminate].
    destruct (IH s H) as [rest ->]. exists rest. reflexivity.
Qed.

Lemma split_scan_skip (sep : string) (t : string) :
  forall cur rest,
    split_scan sep (String.length t) cur (t +:+ rest)
    = split_scan sep 0 cur rest.
Proof.
  induction t as [|c t IH]; intros cur rest.
  - reflexivity.
  - rewrite append_cons. simpl. apply IH.
Qed.

Lemma split_scan_cons (sep : string) :
  forall s skip cur, exists f fs, split_scan sep skip cur s = f :: fs.
Proof.
  induction s as [|c s IH]; intros skip cur; cbn [split_scan]; [eauto|].
  destruct skip as [|k]; [|apply IH].
  destruct (String.prefix sep (String c s)); [eauto|apply IH].
Qed.

Lemma concat_cons (sep f : string) (fs : list string) :
  fs <> [] ->
  String.concat sep (f :: fs) = f +:+ sep +:+ String.concat sep fs.
Proof. destruct fs; [congruence|reflexivity]. Qed.

Lemma join_split_scan (sep : string) :
  sep <> "" ->
  forall n s cur,
    (String.length s <= n)%nat ->
    String.concat sep (split_scan sep 0 cur s) = cur +:+ s.
Proof.
  intros Hsep. induction n as [|n IH]; intros s cur Hlen.
  - destruct s; simpl in Hlen; [|lia]. simpl. now rewrite append_empty_r.
  - destruct s as [|c s]; [simpl; now rewrite append_empty_r|].
    cbn [split_scan].
    destruct (String.prefix sep (String c s)) eqn:Hp.
    + destruct (prefix_split sep _ Hp) as [rest Hrest].
      destruct sep as [|c0 sep']; [congruence|].
      rewrite append_cons in Hrest. injection Hrest as -> ->.
      replace (String.length (String c0 sep') - 1)%nat
        with (String.length sep') by (simpl; lia).
      rewrite split_scan_skip.
      destruct (split_scan_cons (String c0 sep') rest 0%nat "")
        as (f & fs & Hfs).
      rewrite concat_cons by (rewrite Hfs; discriminate).
      rewrite IH.
      * reflexivity.
      * simpl in Hlen. rewrite length_append in Hlen. lia.
    + rewrite IH by (simpl in Hlen; lia).
      now rewrite append_assoc.
Qed.

(** Splitting a line at a non-empty separator loses nothing: the record has
    at least one field, and joining its fields with the separator gives the
    line back. *)
Theorem single_csv_record_join (data separator : string) :
  separator <> "" ->
  exists r,
    _to_single_csv_record data separator = Ok r /\
    values r <> [] /\
    String.concat separator (values r) = data.
Proof.
  intros Hsep. unfold _to_single_csv_record, split.
  destruct (String.eqb_spec separator "") as [|_]; [contradiction|].
  eexists. split; [reflexivity|]. simpl. split.
  - destruct (split_scan_cons separator data 0%nat "") as (f & fs & ->).
    discriminate.
  - now apply (join_split_scan separator Hsep (String.length data)).
Qed.

Lemma single_csv_record_join_witness :
  "," <> "" /\
  exists r,
    _to_single_csv_record "5.1,3.5,,setosa" "," = Ok r /\
    values r <> [] /\
    String.concat "," (values r) = "5.1,3.5,,setosa".
Proof.
  split; [discriminate|].
  apply (single_csv_record_join "5.1,3.5,,setosa" ","). discriminate.
Defined.

(** A batch has one record per line, in the order of the lines, each the
    split of its line. *)
Theorem batch_csv_record_keeps_lines (data : list string)
        (separator : string) :
  separator <> "" ->
  exists b,
    _to_batch_csv_record data separator = Ok b /\
    length (records b) = length data /\
    forall i d, data !! i = Some d ->
                exists r, records b !! i = Some r /\
                          _to_single_csv_record d separator = Ok r /\
                          String.concat separator (values r) = d.
Proof.
  intros Hsep. unfold _to_batch_csv_record.
  assert (Hone : forall d, exists r,
               _to_single_csv_record d separator = Ok r /\
               String.concat separator (values r) = d).
  { intros d. unfold _to_single_csv_record, split.
    destruct (String.eqb_spec separator "") as [|_]; [contradiction|].
    eexists. split; [reflexivity|].
    now apply (join_split_scan separator Hsep (String.length d)). }
  assert (Hall : exists rs,
             comprehension (fun d => _to_single_csv_record d separator) data
             = Ok rs).
  { induction data as [|d data IH]; [eexists; reflexivity|].
    destruct IH as [rs Hrs].
    destruct (Hone d) as (r & Hr & _).
    exists (r :: rs). cbn [comprehension]. now rewrite Hr, Hrs. }
  destruct Hall as [rs Hrs]. rewrite Hrs. simpl.
  destruct (comprehension_lookup _ _ _ Hrs) as [Hlen Hnth].
  eexists. split; [reflexivity|]. simpl. split; [exact Hlen|].
  intros i d Hd. destruct (Hnth i d Hd) as (r & Hr & Hsplit).
  exists r. split; [exact Hr|]. split; [exact Hsplit|].
  destruct (Hone d) as (r' & Hr' & Hj).
  rewrite Hsplit in Hr'. now injection Hr' as <-.
Qed.

End Csv.

(** The empty separator is the one [split] refuses: a record cannot be
    built with it, and a batch can only when it has no line at all. *)
Theorem csv_empty_separator (data : string) (lines : list string) :
  TransformCsvService._to_single_csv_record data "" = Raise ValueError /\
  (lines <> [] ->
   TransformCsvService._to_batch_csv_record lines "" = Raise ValueError) /\
  (forall separator,
      TransformCsvService._to_batch_csv_record [] separator
      = Ok (TransformCsvService.MkBatchCSVRecord [])).
Proof.
  split; [reflexivity|]. split; [|reflexivity].
  intros Hne. destruct lines as [|d lines]; [congruence|reflexivity].
Qed.

(** ** Rebuilding arrays *)

Lemma prod_shape_cons (n : nat) (shp : list nat) :
  prod_shape (n :: shp) = (n * prod_shape shp)%nat.
Proof. reflexivity. Qed.

Lemma prod_shape_resolved (q : nat) (newshape : list Z) :
  prod_shape (map (fun d => if is_unknown d then q else Z.to_nat d) newshape)
  = (q ^ length (List.filter is_unknown newshape) * known_size newshape)%nat.
Proof.
  unfold known_size.
  induction newshape as [|d l IH]; [reflexivity|].
  cbn [map List.filter]. rewrite prod_shape_cons, IH.
  destruct (is_unknown d); cbn [negb length map].
  - rewrite Nat.pow_succ_r'. apply Nat.mul_assoc.
  - rewrite prod_shape_cons, !Nat.mul_assoc.
    f_equal. apply Nat.mul_comm.
Qed.

Lemma all_known (newshape : list Z) :
  length (List.filter is_unknown newshape) = 0%nat ->
  map (fun d => if is_unknown d then 0%nat else Z.to_nat d) newshape
  = map Z.to_nat newshape.
Proof.
  induction newshape as [|d l IH]; [reflexivity|].
  cbn [List.filter map]. destruct (is_unknown d); [discriminate|].
  intros H. now rewrite IH.
Qed.

Lemma resolve_shape_sound (n : nat) (newshape : list Z) (shp : list nat) :
  resolve_shape n newshape = Ok shp ->
  prod_shape shp = n /\
  length shp = length newshape /\
  forall i d, newshape !! i = Some d -> 0 <= d ->
              shp !! i = Some (Z.to_nat d).
Proof.
  assert (Hkept : forall q i d,
             newshape !! i = Some d -> 0 <= d ->
             map (fun d => if is_unknown d then q else Z.to_nat d) newshape
               !! i = Some (Z.to_nat d)).
  { intros q i d Hi Hd. rewrite list_lookup_fmap, Hi. simpl.
    unfold is_unknown. now rewrite (proj2 (Z.ltb_ge d 0) Hd). }
  unfold resolve_shape.
  destruct (length (List.filter is_unknown newshape)) as [|[|k]] eqn:Hcount;
    [| |discriminate].
  - destruct (Nat.eqb_spec (known_size newshape) n) as [Hn|]; [|discriminate].
    intros Hshp. injection Hshp as <-.
    rewrite <- (all_known newshape Hcount).
    split; [|split; [apply length_map|apply Hkept]].
    rewrite (prod_shape_resolved 0 newshape), Hcount. simpl. lia.
  - destruct (Nat.eqb_spec (known_size newshape) 0) as [|Hk]; [discriminate|].
    destruct (Nat.eqb_spec (n mod known_size newshape) 0) as [Hm|];
      [|discriminate].
    intros Hshp. injection Hshp as <-.
    split; [|split; [apply length_map|apply Hkept]].
    rewrite (prod_shape_resolved (n / known_size newshape) newshape), Hcount.
    rewrite Nat.pow_1_r.
    pose proof (Nat.div_mod_eq n (known_size newshape)). lia.
Qed.

Lemma resolve_shape_fails (n : nat) (newshape : list Z) :
  resolve_shape n newshape <> Running /\
  forall e, resolve_shape n newshape = Raise e -> e = ValueError.
Proof.
  unfold resolve_shape.
  destruct (length (List.filter is_unknown newshape)) as [|[|k]];
    repeat match goal with
           | |- context [if ?b then _ else _] => destruct b
           end;
    (split; [discriminate|congruence]).
Qed.

Lemma output_array_failure {T} {scalars : Scalar T} (o : INDArray T) :
  output_array o <> Running /\
  forall e, output_array o = Raise e -> e = ValueError.
Proof.
  unfold output_array, reshape, asarray, size. simpl.
  pose proof (resolve_shape_fails (length (data o) * 1) (ind_shape o))
    as [Hrun Hval].
  destruct (resolve_shape (length (data o) * 1) (ind_shape o)) as [shp|e|];
    simpl.
  - split; discriminate.
  - split; [discriminate|]. intros e' He. injection He as <-. now apply Hval.
  - contradiction.
Qed.

(** Whatever shape a response descriptor names, an output that [predict]
    rebuilds from it is a sound array: it has one dimension per entry of the
    descriptor's shape, every entry that is not negative is kept, the
    product of the dimensions is the number of elements, and the elements
    are the descriptor's numbers brought to their common type, the very
    same numbers when they are of one kind.  When it cannot be rebuilt the
    exception is [ValueError]. *)
Theorem output_array_sound (o : INDArray pyscalar) :
  (forall a, output_array o = Ok a ->
             well_formed a /\
             length (shape a) = length (ind_shape o) /\
             (forall i d, ind_shape o !! i = Some d -> 0 <= d ->
                          shape a !! i = Some (Z.to_nat d)) /\
             buffer a = map (astype (result_type (data o))) (data o) /\
             (one_kind (data o) = true -> buffer a = data o)) /\
  (forall e, output_array o = Raise e -> e = ValueError) /\
  output_array o <> Running.
Proof.
  split; [|split;
           [apply (proj2 (output_array_failure o))
           |apply (proj1 (output_array_failure o))]].
  unfold output_array, reshape, asarray, size. cbn [shape buffer prod_shape foldr].
  rewrite Nat.mul_1_r.
  pose proof (resolve_shape_sound (length (data o)) (ind_shape o)) as Hok.
  destruct (resolve_shape (length (data o)) (ind_shape o)) as [shp|e|];
    simpl; try discriminate.
  destruct (Hok shp eq_refl) as (Hprod & Hlen & Hkept).
  intros a Ha. injection Ha as <-. unfold well_formed, size. simpl.
  split; [now rewrite length_map|].
  split; [exact Hlen|]. split; [exact Hkept|]. split; [reflexivity|].
  intros Hkind. now apply (one_kind_as_common_type (data o)).
Qed.

(** [predict_single] marshals an input of any rank with a leading batch
    dimension of 1 and its elements untouched, and a response that echoes
    the descriptor is rebuilt with that dimension still in place and the
    elements brought to their common type: the very same array when the
    numbers are of one kind. *)
Theorem predict_single_batch_dimension (a : ndarray pyscalar) :
  well_formed a ->
  exists d a',
    _indarray (expand_dims0 a) = Ok d /\
    ind_shape d = 1 :: map Z.of_nat (shape a) /\
    data d = buffer a /\
    output_array d = Ok a' /\
    shape a' = 1%nat :: shape a /\
    buffer a' = map (astype (result_type (buffer a))) (buffer a) /\
    (one_kind (buffer a) = true -> a' = expand_dims0 a).
Proof.
  intros Hwf. rewrite indarray_run.
  assert (Hwf' : well_formed (expand_dims0 a))
    by (unfold well_formed, size, expand_dims0 in *; simpl; lia).
  eexists. eexists. split; [reflexivity|].
  split; [reflexivity|]. split; [reflexivity|].
  split; [now apply (output_array_rebuilt (expand_dims0 a))|].
  split; [reflexivity|]. split; [reflexivity|].
  intros Hkind. simpl buffer.
  now rewrite (one_kind_as_common_type _ Hkind).
Qed.


Lemma predict_single_batch_dimension_witness :
  well_formed demo_array /\
  exists d,
    _indarray (expand_dims0 demo_array) = Ok d /\
    ind_shape d = [1; 2; 3] /\
    data d = ints [1; 2; 3; 4; 5; 6] /\
    output_array d = Ok (Ndarray [1; 2; 3]%nat (ints [1; 2; 3; 4; 5; 6])).
Proof.
  split; [reflexivity|].
  destruct (predict_single_batch_dimension demo_array eq_refl)
    as (d & a' & Hd & Hshp & Hdata & Ha' & _ & _ & Hsame).
  exists d. split; [exact Hd|]. split; [exact Hshp|]. split; [exact Hdata|].
  now rewrite Ha', (Hsame eq_refl).
Defined.

Lemma output_array_sound_witness :
  let o := MkINDArray "c" [-5; 2] (ints [1; 2 ^ 63 + 1]) in
  let a := Ndarray [1; 2]%nat
                   [PyFloat (float_of_int 1); PyFloat (float_of_int (2 ^ 63))] in
  output_array o = Ok a /\
  well_formed a /\
  length (shape a) = 2%nat /\
  shape a !! 1%nat = Some 2%nat /\
  buffer a = map (astype Float64) (ints [1; 2 ^ 63 + 1]).
Proof.
  intros o a.
  assert (Ha : output_array o = Ok a) by (vm_compute; reflexivity).
  split; [exact Ha|].
  destruct (proj1 (output_array_sound o) a Ha)
    as (Hwf & Hlen & Hkept & Hbuf & _).
  split; [exact Hwf|]. split; [exact Hlen|].
  split; [apply (Hkept 1%nat 2); [reflexivity|lia]|exact Hbuf].
Defined.


(** ** What the methods leave alone *)

Section Frames.

Context {T : Type}.
Context {scalars : Scalar T}.
Variable env : Server T.
Variable ok : Request T -> Prop.

Lemma only_sends_refl (w : World T) : only_sends ok w w.
Proof.
  split; [reflexivity|]. split; [reflexivity|].
  exists []. split; [now rewrite app_nil_r|constructor].
Qed.

Lemma only_sends_trans (w1 w2 w3 : World T) :
  only_sends ok w1 w2 -> only_sends ok w2 w3 -> only_sends ok w1 w3.
Proof.
  intros (Hh & Hf & m & Hs & Hm) (Hh' & Hf' & m' & Hs' & Hm').
  split; [congruence|]. split; [congruence|].
  exists (m ++ m')%list. split.
  - now rewrite Hs', Hs, app_assoc.
  - now apply Forall_app.
Qed.

Lemma keeps_bind {A B} (c : M A) (k : A -> M B) :
  keeps ok c -> (forall a, keeps ok (k a)) -> keeps ok (c ≫= k).
Proof.
  intros Hc Hk w. rewrite bind_run. specialize (Hc w).
  destruct (c w) as [[a|e|] w1]; try exact Hc.
  exact (only_sends_trans _ _ _ Hc (Hk a w1)).
Qed.

Lemma keeps_ret {A} (a : A) : keeps ok (mret a).
Proof. intros w. apply only_sends_refl. Qed.

Lemma keeps_raise {A} (e : exn) : keeps ok (raise (A := A) e).
Proof. intros w. apply only_sends_refl. Qed.

Lemma keeps_lift {A} (r : outcome A) : keeps ok (lift r).
Proof. intros w. apply only_sends_refl. Qed.

Lemma keeps_getattr (v : value) (name : string) : keeps ok (getattr v name).
Proof.
  intros w. rewrite getattr_run.
  destruct (attr w v name); apply only_sends_refl.
Qed.

Lemma keeps_sleep (secs : Z) : keeps ok (sleep secs).
Proof.
  intros w. split; [reflexivity|]. split; [reflexivity|].
  exists []. split; [simpl; now rewrite app_nil_r|constructor].
Qed.

Lemma keeps_pprint (printer : value) (msg : string) :
  keeps ok (pprint printer msg).
Proof.
  intros w. destruct printer; try apply only_sends_refl.
  split; [reflexivity|]. split; [reflexivity|].
  exists []. split; [simpl; now rewrite app_nil_r|constructor].
Qed.

Lemma only_sends_send (r : Request T) (w : World T) :
  ok r -> only_sends ok w (send r w).
Proof.
  intros Hr. split; [reflexivity|]. split; [reflexivity|].
  exists [r]. split; [reflexivity|]. now repeat constructor.
Qed.

Lemma keeps_say (self : value) (msg : string) : keeps ok (say self msg).
Proof.
  unfold say.
  apply keeps_bind; [apply keeps_getattr|intros skil].
  apply keeps_bind; [apply keeps_getattr|intros printer].
  apply keeps_pprint.
Qed.

Lemma keeps_state_change (self : value) (s : string) :
  (forall deployment_id model_id,
      ok (ModelStateChange deployment_id model_id s)) ->
  keeps ok (state_change env self s).
Proof.
  intros Hok. unfold state_change.
  apply keeps_bind; [apply keeps_getattr|intros skil].
  apply keeps_bind; [apply keeps_getattr|intros api].
  apply keeps_bind; [apply keeps_getattr|intros deployment].
  apply keeps_bind; [apply keeps_getattr|intros deployment_id].
  apply keeps_bind; [apply keeps_getattr|intros model_deployment].
  apply keeps_bind; [apply keeps_getattr|intros model_id].
  intros w. unfold model_state_change.
  destruct api; try apply only_sends_refl.
  destruct (state_of env (length (sent w))); now apply only_sends_send.
Qed.

Lemma keeps_classification_outputs (self version : value)
      (inputs : list (INDArray T)) :
  (forall deployment_name model_name version_name id inputs,
      ok (MultiPredict deployment_name model_name version_name id false
                       inputs)) ->
  keeps ok (classification_outputs env self version inputs).
Proof.
  intros Hok. unfold classification_outputs.
  apply keeps_bind; [apply keeps_getattr|intros skil].
  apply keeps_bind; [apply keeps_getattr|intros api].
  apply keeps_bind; [apply keeps_getattr|intros deployment].
  apply keeps_bind; [apply keeps_getattr|intros deployment_name].
  apply keeps_bind; [apply keeps_getattr|intros model_name].
  apply keeps_bind; [intros w; apply only_sends_refl|intros id].
  intros w. unfold multipredict.
  destruct api; try apply only_sends_refl.
  destruct (outputs_of env (length (sent w))); now apply only_sends_send.
Qed.

End Frames.

Section FrameTheorems.

Context {T : Type}.
Context {scalars : Scalar T}.
Variable env : Server T.

(** Whatever the service object looks like, whatever the server answers and
    however long it runs, [start] changes no local object and no file, and
    the only requests it sends are "start" state changes. *)
Theorem start_only_sends_start (fuel : nat) (self : value) (w : World T) :
  only_sends (is_state_change "start") w (start env fuel self w).2.
Proof.
  assert (Hreq : forall deployment_id model_id,
             is_state_change (T := T) "start"
               (ModelStateChange deployment_id model_id "start"))
    by (intros d m; exists d, m; reflexivity).
  assert (Hloop : forall fuel,
             keeps (is_state_change "start") (start_loop env fuel self)).
  { clear fuel w. induction fuel as [|fuel IH].
    - intros w. apply only_sends_refl.
    - cbn [start_loop].
      apply keeps_bind; [apply keeps_sleep|intros _].
      apply keeps_bind; [now apply keeps_state_change|intros model_state].
      destruct (decide (model_state = VStr "started")).
      + apply keeps_bind; [apply keeps_sleep|intros _]. apply keeps_say.
      + apply keeps_bind; [apply keeps_say|intros _]. exact IH. }
  revert w. change (keeps (is_state_change "start") (start env fuel self)).
  unfold start.
  apply keeps_bind; [apply keeps_getattr|intros model_deployment].
  destruct (negb (truthy model_deployment)); [apply keeps_say|].
  apply keeps_bind; [now apply keeps_state_change|intros _].
  apply keeps_bind; [apply keeps_say|intros _].
  apply Hloop.
Qed.

(** [predict] and [predict_single] change no local object and no file, and
    send nothing but [multipredict] requests that ask for no
    pre-processing, whether they return or raise. *)
Theorem predict_only_sends_multipredict (self : value) (data : pydata T)
        (version : value) (w : World T) :
  only_sends is_multipredict w (predict env self data version w).2 /\
  only_sends is_multipredict w (predict_single env self data version w).2.
Proof.
  assert (Hreq : forall deployment_name model_name version_name id inputs,
             is_multipredict (T := T)
               (MultiPredict deployment_name model_name version_name id false
                             inputs))
    by (intros d m v i x; exists d, m, v, i, x; reflexivity).
  split; revert w.
  - change (keeps is_multipredict (predict env self data version)).
    unfold predict.
    apply keeps_bind; [apply keeps_lift|intros inputs].
    apply keeps_bind; [now apply keeps_classification_outputs|intros outs].
    apply keeps_bind; [apply keeps_lift|intros arrays].
    destruct arrays as [|o [|o' arrays]]; apply keeps_ret.
  - change (keeps is_multipredict (predict_single env self data version)).
    unfold predict_single.
    apply keeps_bind; [apply keeps_lift|intros inputs].
    apply keeps_bind; [now apply keeps_classification_outputs|intros outs].
    destruct outs as [|output outs]; [apply keeps_raise|].
    apply keeps_bind; [apply keeps_lift|intros a]. apply keeps_ret.
Qed.

End FrameTheorems.

(** ** Failures of the server during [start] *)

Section StartFailures.

Context {T : Type}.
Context {scalars : Scalar T}.
Variable env : Server T.

Lemma start_head (fuel : nat) (self dep_id md_id st0 : value) (w : World T) :
  wired w self dep_id md_id ->
  has_printer w self ->
  state_of env (length (sent w)) = Some st0 ->
  start env fuel self w =
  start_loop env fuel self
             (start_requested (ModelStateChange dep_id md_id "start") w).
Proof.
  intros Hw Hp Hst0.
  destruct Hw as (skil & dep & md & H1 & H2 & H3 & H4 & Hmd & Htruthy & H7).
  assert (Hw : wired w self dep_id md_id)
    by (exists skil, dep, md; tauto).
  unfold start.
  rewrite bind_run, (getattr_ok _ _ _ _ Hmd), Htruthy.
  change (negb true) with false. cbv iota.
  rewrite bind_run, (state_change_run _ _ _ _ _ _ Hw), Hst0.
  cbv beta iota.
  rewrite bind_run, say_run;
    [unfold start_requested, send; simpl; now rewrite <- app_assoc|].
  now apply (has_printer_heap w).
Qed.

Lemma after_polls_more (req : Request T) (k : nat) (w : World T) :
  after_polls req k (after_polls req 1 w) = after_polls req (S k) w.
Proof.
  unfold after_polls, poll_rounds. simpl. rewrite <- !app_assoc. simpl.
  f_equal. lia.
Qed.

Lemma start_loop_rounds (self dep_id md_id : value) :
  forall (k fuel : nat) (w : World T),
    wired w self dep_id md_id ->
    has_printer w self ->
    (forall i, (i < k)%nat ->
               exists st, state_of env (length (sent w) + i) = Some st /\
                          st <> VStr "started") ->
    start_loop env (k + fuel) self w =
    start_loop env fuel self
               (after_polls (ModelStateChange dep_id md_id "start") k w).
Proof.
  induction k as [|k IH]; intros fuel w Hw Hp Hwait.
  - unfold after_polls. simpl. rewrite !app_nil_r, Z.add_0_r.
    now destruct w.
  - destruct (Hwait 0%nat) as (st & Hst & Hne); [lia|].
    rewrite Nat.add_0_r in Hst. cbn [Nat.add].
    rewrite (start_loop_round env (k + fuel) self dep_id md_id st w
                              Hw Hp Hst Hne).
    rewrite IH.
    + now rewrite after_polls_more.
    + now apply (wired_heap w).
    + now apply (has_printer_heap w).
    + intros i Hi. simpl. rewrite length_app. simpl.
      replace (length (sent w) + 1 + i)%nat
        with (length (sent w) + S i)%nat by lia.
      apply Hwait. lia.
Qed.

(** [start] does not retry.  If the server fails the first request, or
    fails a poll after [k] polls that were answered with some other state,
    [start] ends at once with that [ApiException]: nothing more is sent or
    printed, and the settle delay is not taken. *)
Theorem start_does_not_retry (self dep_id md_id : value) (w : World T) :
  wired w self dep_id md_id ->
  has_printer w self ->
  let req := ModelStateChange dep_id md_id "start" in
  let poll i := state_of env (length (sent w) + S i) in
  (state_of env (length (sent w)) = None ->
   forall fuel, start env fuel self w = (Raise ApiException, send req w)) /\
  (forall k,
      is_Some (state_of env (length (sent w))) ->
      (forall i, (i < k)%nat ->
                 exists st, poll i = Some st /\ st <> VStr "started") ->
      poll k = None ->
      forall fuel,
        (k < fuel)%nat ->
        start env fuel self w =
        (Raise ApiException,
         MkWorld (heap w)
                 (sent w ++ replicate (k + 2) req)
                 (stdout w ++ [">>> Starting to serve model..."]
                    ++ replicate k ">>> Waiting for deployment...")
                 (slept w + 5 * Z.of_nat (k + 1))
                 (files w)
                 (events w
                    ++ [Sent req; Printed ">>> Starting to serve model..."]
                    ++ poll_rounds req k
                    ++ [Slept 5; Sent req]))).
Proof.
  intros Hw Hp req poll. split.
  - intros Hnone fuel.
    destruct Hw as (skil & dep & md & H1 & H2 & H3 & H4 & Hmd & Htruthy & H7).
    assert (Hw : wired w self dep_id md_id)
      by (exists skil, dep, md; tauto).
    unfold start.
    rewrite bind_run, (getattr_ok _ _ _ _ Hmd), Htruthy.
    change (negb true) with false. cbv iota.
    now rewrite bind_run, (state_change_run _ _ _ _ _ _ Hw), Hnone.
  - intros k [st0 Hst0] Hwait Hfail fuel Hfuel.
    rewrite (start_head fuel self dep_id md_id st0 w Hw Hp Hst0).
    fold req.
    assert (Hw' : wired (start_requested req w) self dep_id md_id)
      by now apply (wired_heap w).
    assert (Hp' : has_printer (start_requested req w) self)
      by now apply (has_printer_heap w).
    assert (Hlen : forall i,
               (length (sent (start_requested req w)) + i
                = length (sent w) + S i)%nat).
    { intros i. simpl. rewrite length_app. simpl. lia. }
    replace fuel with (k + S (fuel - S k))%nat by lia.
    rewrite (start_loop_rounds self dep_id md_id k _ _ Hw' Hp').
    + cbn [start_loop]. rewrite bind_run. unfold sleep at 1.
      cbv beta iota.
      match goal with
      | |- (_ ≫= _) ?w1 = _ =>
          assert (Hw1 : wired w1 self dep_id md_id)
            by (now apply (wired_heap w));
          rewrite bind_run, (state_change_run _ _ _ _ _ w1 Hw1)
      end.
      simpl sent. rewrite length_app, length_app, length_replicate.
      simpl length.
      replace (length (sent w) + 1 + k)%nat
        with (length (sent w) + S k)%nat by lia.
      fold (poll k). rewrite Hfail.
      unfold send, after_polls, start_requested. simpl.
      rewrite <- !app_assoc. simpl.
      replace (k + 2)%nat with (S (S k)) by lia.
      replace (k + 1)%nat with (S k) by lia.
      do 2 f_equal.
      * f_equal. rewrite <- replicate_cons_app. reflexivity.
      * lia.
    + intros i Hi. rewrite Hlen. now apply Hwait.
Qed.

End StartFailures.

(** ** The request of [predict] and its corner cases *)

Section PredictRequests.

Context {T : Type}.
Context {scalars : Scalar T}.
Variable env : Server T.

Lemma classification_outputs_run (self deployment_name model_name : value)
      (version : value) (inputs : list (INDArray T)) (w : World T) :
  predict_ready w self deployment_name model_name ->
  classification_outputs env self version inputs w =
  (match outputs_of env (length (sent w)) with
   | Some outs => Ok outs
   | None => Raise ApiException
   end,
   send (MultiPredict deployment_name model_name version
                      (uuid1 env (length (sent w))) false inputs) w).
Proof.
  intros (skil & dep & H1 & H2 & H3 & H4 & H5).
  unfold classification_outputs.
  rewrite bind_run, (getattr_ok _ _ _ _ H1).
  rewrite bind_run, (getattr_ok _ _ _ _ H2).
  rewrite bind_run, (getattr_ok _ _ _ _ H3).
  rewrite bind_run, (getattr_ok _ _ _ _ H4).
  rewrite bind_run, (getattr_ok _ _ _ _ H5).
  rewrite bind_run. unfold fresh_uuid at 1. unfold multipredict.
  now destruct (outputs_of env (length (sent w))).
Qed.

Lemma comprehension_raises {A B} (f : A -> outcome B) (l : list A) (x : A) :
  x ∈ l ->
  (forall y, f x <> Ok y) ->
  (forall z e, f z = Raise e -> e = ValueError) ->
  (forall z, f z <> Running) ->
  comprehension f l = Raise ValueError.
Proof.
  intros Hin Hbad Hval Hrun.
  induction l as [|z l IH]; [now apply elem_of_nil in Hin|].
  cbn [comprehension].
  destruct (f z) as [y|e|] eqn:Hz.
  - apply elem_of_cons in Hin as [->|Hin].
    + now contradiction (Hbad y).
    + simpl. now rewrite (IH Hin).
  - simpl. now rewrite (Hval z e Hz).
  - now contradiction (Hrun z).
Qed.

(** However many inputs a multi-input model takes, [predict] sends them in
    one request: exactly one [multipredict] with the deployment's name, the
    service's model name, the caller's version, no pre-processing and one
    descriptor per input, in order.  This holds whatever comes back. *)
Theorem predict_sends_one_batched_request
        (self deployment_name model_name : value)
        (data : pydata T) (version : value) (w : World T) :
  predict_ready w self deployment_name model_name ->
  sent (predict env self data version w).2
  = (sent w ++ [MultiPredict deployment_name model_name version
                             (uuid1 env (length (sent w))) false
                             (inputs_of data)])%list /\
  length (inputs_of data)
  = match data with Arr _ => 1%nat | Arrs l => length l end /\
  forall i a, match data with Arr x => [x] | Arrs l => l end !! i = Some a ->
              exists d, inputs_of data !! i = Some d /\
                        _indarray a = Ok d.
Proof.
  intros Hready. split; [|split].
  - rewrite predict_run.
    rewrite (classification_outputs_run _ _ _ _ _ _ Hready).
    destruct (outputs_of env (length (sent w))) as [outs|]; [|reflexivity].
    destruct (comprehension output_array outs) as [[|o [|o' arrays]]|e|];
      reflexivity.
  - destruct data as [x|l]; [reflexivity|apply length_map].
  - intros i a Ha. destruct data as [x|l].
    + destruct i as [|i]; [|discriminate]. injection Ha as <-.
      eexists. split; [reflexivity|apply indarray_run].
    + unfold inputs_of. rewrite list_lookup_fmap, Ha. simpl.
      eexists. split; [reflexivity|apply indarray_run].
Qed.

(** A response without outputs: [predict] returns the empty list, and
    [predict_single] raises [IndexError]. *)
Theorem predict_on_empty_response (self deployment_name model_name : value)
        (data : pydata T) (version : value) (w : World T) :
  predict_ready w self deployment_name model_name ->
  outputs_of env (length (sent w)) = Some [] ->
  (predict env self data version w).1 = Ok (Arrs []) /\
  (predict_single env self data version w).1 = Raise IndexError.
Proof.
  intros Hready Hempty. split.
  - rewrite predict_run.
    now rewrite (classification_outputs_run _ _ _ _ _ _ Hready), Hempty.
  - rewrite predict_single_run.
    now rewrite (classification_outputs_run _ _ _ _ _ _ Hready), Hempty.
Qed.

(** One output whose data does not fit its shape spoils the whole answer of
    [predict], which raises [ValueError] after the request went out;
    [predict_single] only looks at the first output and returns it when that
    one is sound, whatever follows. *)
Theorem predict_rejects_malformed_output
        (self deployment_name model_name : value)
        (data : pydata T) (version : value) (w : World T)
        (outs : list (INDArray T)) (bad : INDArray T) :
  predict_ready w self deployment_name model_name ->
  outputs_of env (length (sent w)) = Some outs ->
  bad ∈ outs ->
  (forall a, output_array bad <> Ok a) ->
  (predict env self data version w).1 = Raise ValueError /\
  (forall o rest a,
      outs = o :: rest -> output_array o = Ok a ->
      (predict_single env self data version w).1 = Ok (Arr a)).
Proof.
  intros Hready Houts Hin Hbad. split.
  - rewrite predict_run.
    rewrite (classification_outputs_run _ _ _ _ _ _ Hready), Houts.
    rewrite (comprehension_raises output_array outs bad Hin Hbad);
      [reflexivity| |].
    + intros z e Hz. now apply (proj2 (output_array_failure z)).
    + intros z. apply (proj1 (output_array_failure z)).
  - intros o rest a -> Ho. rewrite predict_single_run.
    rewrite (classification_outputs_run _ _ _ _ _ _ Hready), Houts.
    now rewrite Ho.
Qed.

End PredictRequests.

(** ** detect_objects and the disk *)

Section Detection.

Context {T float Json : Type}.
Variable env : Server T.
Variable str_float : float -> string.
Variable json_loads : string -> option Json.

Ltac read_attr :=
  rewrite bind_run, getattr_run;
  match goal with
  | |- context [attr ?w ?v ?n] => destruct (attr w v n)
  end.





End Detection.

(** ** Resources and services as objects *)

Section Objects.

Context {T : Type}.
Context {scalars : Scalar T}.
Variable env : Server T.

(** A resource with an identifier is deleted remotely with one request that
    names it, and [delete] forgets nothing locally: the identifier is still
    there afterwards, so a second [delete] sends the request again. *)
Theorem delete_sends_id_and_keeps_it (self skil rid : value) (w : World T) :
  attr w self "resource_id" = Some rid ->
  truthy rid = true ->
  attr w self "skil" = Some skil ->
  attr w skil "api" = Some VApi ->
  let w' := send (DeleteResourceById rid) w in
  delete env self w
  = (if delete_ok env (length (sent w)) then Ok tt else Raise ApiException,
     w') /\
  attr w' self "resource_id" = Some rid /\
  sent (delete env self w').2
  = (sent w ++ [DeleteResourceById rid; DeleteResourceById rid])%list.
Proof.
  intros Hid Htruthy Hskil Hapi w'.
  assert (Hrun : forall w0,
             heap w0 = heap w ->
             delete env self w0
             = (if delete_ok env (length (sent w0)) then Ok tt
                else Raise ApiException,
                send (DeleteResourceById rid) w0)).
  { intros w0 Hh. unfold delete.
    rewrite bind_run, (getattr_ok _ rid), Htruthy
      by (now rewrite (attr_heap w w0)).
    rewrite bind_run, (getattr_ok _ skil), bind_run, (getattr_ok _ VApi),
      bind_run, (getattr_ok _ rid)
      by (now rewrite (attr_heap w w0)).
    unfold delete_resource_by_id.
    now destruct (delete_ok env (length (sent w0))). }
  split; [now apply Hrun|]. split.
  - now rewrite (attr_heap w w').
  - rewrite (Hrun w' eq_refl). simpl. now rewrite <- app_assoc.
Qed.

(** An identifier that counts as false in a condition, such as the number
    0 or the empty string, is treated like a missing one: [delete] sends
    nothing and changes nothing. *)
Theorem delete_ignores_falsy_id (self rid : value) (w : World T) :
  attr w self "resource_id" = Some rid ->
  truthy rid = false ->
  delete env self w = (Ok tt, w).
Proof.
  intros Hid Hfalsy. unfold delete.
  now rewrite bind_run, (getattr_ok _ _ _ _ Hid), Hfalsy.
Qed.

Lemma attr_store_not_self (l : loc) (name name' : string) (x v : value)
      (w : World T) :
  v <> VRef l -> attr (store l name x w) v name' = attr w v name'.
Proof.
  intros Hne. destruct v as [| | | |l'| |]; try reflexivity.
  apply attr_store_elsewhere. congruence.
Qed.

(** [Service.__init__] copies the model's name of that moment into
    [model_name] and binds the other four fields to its arguments, touching
    no other object and sending nothing.  A model without a [name] makes it
    raise [AttributeError] halfway: [skil] and [model] are bound,
    [model_deployment] and [deployment] are not. *)
Theorem Service_init_fields (l : loc)
        (skil model deployment model_deployment : value) (w : World T) :
  model <> VRef l ->
  let run := Service_init (VRef l) skil model deployment model_deployment w in
  let self := VRef l in
  (forall name,
      attr w model "name" = Some name ->
      run.1 = Ok tt /\
      attr run.2 self "skil" = Some skil /\
      attr run.2 self "model" = Some model /\
      attr run.2 self "model_name" = Some name /\
      attr run.2 self "model_deployment" = Some model_deployment /\
      attr run.2 self "deployment" = Some deployment) /\
  (attr w model "name" = None ->
   run.1 = Raise AttributeError /\
   attr run.2 self "skil" = Some skil /\
   attr run.2 self "model" = Some model /\
   attr run.2 self "model_deployment" = attr w self "model_deployment" /\
   attr run.2 self "deployment" = attr w self "deployment") /\
  (forall v name, v <> self -> attr run.2 v name = attr w v name) /\
  sent run.2 = sent w /\ stdout run.2 = stdout w /\ files run.2 = files w.
Proof.
  intros Hne run self.
  set (w2 := store l "model" model (store l "skil" skil w)).
  assert (Hmodel : attr w2 self "model" = Some model)
    by apply attr_store_same.
  assert (Hname : attr w2 model "name" = attr w model "name").
  { unfold w2. now rewrite !attr_store_not_self by exact Hne. }
  assert (Hrun : run =
            match attr w model "name" with
            | Some name =>
                (Ok tt,
                 store l "deployment" deployment
                   (store l "model_deployment" model_deployment
                      (store l "model_name" name w2)))
            | None => (Raise AttributeError, w2)
            end).
  { unfold run, Service_init.
    rewrite bind_run. unfold setattr at 1. cbv iota.
    rewrite bind_run. unfold setattr at 1. cbv iota.
    fold w2. fold self.
    rewrite bind_run, (getattr_ok _ _ _ _ Hmodel).
    rewrite bind_run, getattr_run, Hname.
    now destruct (attr w model "name"). }
  rewrite Hrun. split; [|split; [|split]].
  - intros name Hn. rewrite Hn. cbn [fst snd].
    split; [reflexivity|]. unfold self, w2.
    repeat split.
    + rewrite !attr_store_other by discriminate. apply attr_store_same.
    + rewrite !attr_store_other by discriminate. apply attr_store_same.
    + rewrite !attr_store_other by discriminate. apply attr_store_same.
    + rewrite attr_store_other by discriminate. apply attr_store_same.
    + apply attr_store_same.
  - intros Hn. rewrite Hn. cbn [fst snd].
    split; [reflexivity|]. unfold self, w2.
    repeat split.
    + rewrite attr_store_other by discriminate. apply attr_store_same.
    + apply attr_store_same.
    + now rewrite !attr_store_other by discriminate.
    + now rewrite !attr_store_other by discriminate.
  - intros v name Hv. unfold w2.
    destruct (attr w model "name"); cbn [snd];
      now rewrite !attr_store_not_self by exact Hv.
  - destruct (attr w model "name"); auto.
Qed.

End Objects.

(** ** Pipelines and their stages *)

Section PipelineStages.

Context {T : Type}.
Context {scalars : Scalar T}.
Variable env : Server T.

(** Without a transform stage ([transform_service] is [None] or otherwise
    false) a pipeline is its model stage: [predict], [predict_single] and
    [detect_objects] hand the input over unchanged, and [detect_objects]
    does not pass [version] on. *)
Theorem Pipeline_without_transform_is_its_model
        {Data float Json : Type}
        (call_predict call_predict_single : value -> Data -> value -> M Data)
        (call_detect_objects :
           value -> Data -> float -> bool -> string -> M (T := T) Json)
        (self ts ms : value) (data : Data) (version : value)
        (threshold : float) (needs_preprocessing : bool)
        (temp_path : string) (w : World T) :
  attr w self "transform_service" = Some ts ->
  truthy ts = false ->
  attr w self "model_service" = Some ms ->
  Pipeline_predict call_predict self data version w
  = call_predict ms data version w /\
  Pipeline_predict_single call_predict_single self data version w
  = call_predict_single ms data version w /\
  Pipeline_detect_objects call_predict_single call_detect_objects self data
                          threshold needs_preprocessing temp_path version w
  = call_detect_objects ms data threshold needs_preprocessing temp_path w.
Proof.
  intros Hts Hfalsy Hms.
  unfold Pipeline_predict, Pipeline_predict_single, Pipeline_detect_objects.
  repeat split.
  all: rewrite bind_run, (getattr_ok _ _ _ _ Hts), Hfalsy.
  all: rewrite bind_run; unfold mret, M_ret, ret; cbv beta iota.
  all: now rewrite bind_run, (getattr_ok _ _ _ _ Hms).
Qed.

(** [Pipeline.stop] stops the model stage first and the transform stage
    second, one request each.  It has no guard for a missing transform
    stage: with [transform_service] at [None] the model stage is stopped
    and then [AttributeError] is raised. *)
Theorem Pipeline_stop_order (self ms ts d1 m1 : value) (w : World T) :
  attr w self "model_service" = Some ms ->
  attr w self "transform_service" = Some ts ->
  wired w ms d1 m1 ->
  is_Some (state_of env (length (sent w))) ->
  (forall d2 m2,
      wired w ts d2 m2 ->
      is_Some (state_of env (S (length (sent w)))) ->
      Pipeline_stop (stop env) self w
      = (Ok tt,
         MkWorld (heap w)
                 (sent w ++ [ModelStateChange d1 m1 "stop";
                             ModelStateChange d2 m2 "stop"])
                 (stdout w) (slept w) (files w)
                 (events w ++ [Sent (ModelStateChange d1 m1 "stop");
                               Sent (ModelStateChange d2 m2 "stop")]))) /\
  (ts = VNone ->
   Pipeline_stop (stop env) self w
   = (Raise AttributeError, send (ModelStateChange d1 m1 "stop") w)).
Proof.
  intros Hms Hts Hw1 [st1 Hst1].
  set (w1 := send (ModelStateChange d1 m1 "stop") w).
  assert (Hfirst : Pipeline_stop (stop env) self w
                   = (ts' ← getattr self "transform_service";
                      stop env ts') w1).
  { unfold Pipeline_stop.
    rewrite bind_run, (getattr_ok _ _ _ _ Hms).
    rewrite bind_run. unfold stop at 1.
    rewrite bind_run, (state_change_run _ _ _ _ _ _ Hw1), Hst1.
    reflexivity. }
  assert (Hts1 : attr w1 self "transform_service" = Some ts)
    by now rewrite (attr_heap w w1).
  rewrite Hfirst, bind_run, (getattr_ok _ _ _ _ Hts1).
  split.
  - intros d2 m2 Hw2 [st2 Hst2].
    assert (Hw2' : wired w1 ts d2 m2) by now apply (wired_heap w).
    unfold stop.
    rewrite bind_run, (state_change_run _ _ _ _ _ _ Hw2').
    unfold w1 at 1. simpl sent. rewrite length_app. simpl length.
    rewrite Nat.add_1_r, Hst2. unfold w1, send. simpl.
    now rewrite <- !app_assoc.
  - intros ->. reflexivity.
Qed.

(** [Pipeline.start] starts the model stage first, and while that stage
    keeps polling the transform stage is not contacted: if the server never
    reports the model as started, every request sent is the model stage's
    own "start". *)
Theorem Pipeline_start_waits_for_model (self ms d1 m1 : value)
        (w : World T) :
  attr w self "model_service" = Some ms ->
  wired w ms d1 m1 ->
  has_printer w ms ->
  is_Some (state_of env (length (sent w))) ->
  (forall i, exists st,
      state_of env (length (sent w) + S i) = Some st /\
      st <> VStr "started") ->
  forall fuel,
    Pipeline_start (start env fuel) self w
    = (Running,
       after_polls (ModelStateChange d1 m1 "start") fuel
                   (start_requested (ModelStateChange d1 m1 "start") w)).
Proof.
  intros Hms Hw Hp [st0 Hst0] Hwait fuel.
  unfold Pipeline_start.
  rewrite bind_run, (getattr_ok _ _ _ _ Hms), bind_run.
  rewrite (start_head env fuel ms d1 m1 st0 w Hw Hp Hst0).
  rewrite (start_loop_running env ms d1 m1 fuel).
  - reflexivity.
  - now apply (wired_heap w).
  - now apply (has_printer_heap w).
  - intros i. simpl. rewrite length_app. simpl.
    replace (length (sent w) + 1 + i)%nat
      with (length (sent w) + S i)%nat by lia.
    apply Hwait.
Qed.

End PipelineStages.

(** ** Fields of a CSV record *)

Section CsvFields.

Import TransformCsvService.

Lemma prefix_append (sep rest : string) :
  String.prefix sep (sep +:+ rest) = true.
Proof.
  induction sep as [|c sep IH]; [now destruct rest|].
  rewrite append_cons. simpl.
  destruct (Ascii.ascii_dec c c); [exact IH|congruence].
Qed.

Lemma append_eq_empty (s t : string) : s +:+ t = "" -> t = "".
Proof. destruct s; [auto|discriminate]. Qed.

Lemma snoc_suffix (c : Ascii.ascii) :
  forall pre cur t,
    cur +:+ String c "" = pre +:+ t ->
    t <> "" ->
    exists t0, t = t0 +:+ String c "" /\ cur = pre +:+ t0.
Proof.
  induction pre as [|a pre IH]; intros cur t Heq Hne.
  - exists cur. split; [now rewrite Heq|reflexivity].
  - rewrite append_cons in Heq. destruct cur as [|a' cur].
    + injection Heq as _ Heq. symmetry in Heq.
      apply append_eq_empty in Heq. contradiction.
    + rewrite append_cons in Heq. injection Heq as -> Heq.
      destruct (IH cur t Heq Hne) as (t0 & -> & ->).
      exists t0. split; reflexivity.
Qed.

Lemma split_scan_fields_clean (sep : string) :
  sep <> "" ->
  forall n s cur,
    (String.length s <= n)%nat ->
    (forall pre t, cur = pre +:+ t -> t <> "" ->
                   String.prefix sep (t +:+ s) = false) ->
    forall f, f ∈ split_scan sep 0 cur s ->
              forall pre post, f <> pre +:+ sep +:+ post.
Proof.
  intros Hsep.
  assert (Hfield : forall cur s,
             (forall pre t, cur = pre +:+ t -> t <> "" ->
                            String.prefix sep (t +:+ s) = false) ->
             forall pre post, cur <> pre +:+ sep +:+ post).
  { intros cur s Hinv pre post Heq.
    assert (Ht : sep +:+ post <> "")
      by (destruct sep; [congruence|discriminate]).
    specialize (Hinv pre (sep +:+ post) Heq Ht).
    rewrite append_assoc, prefix_append in Hinv. discriminate. }
  induction n as [|n IH]; intros s cur Hlen Hinv f Hf.
  - destruct s; simpl in Hlen; [|lia]. simpl in Hf.
    apply list_elem_of_singleton in Hf as ->. now apply (Hfield cur "").
  - destruct s as [|c s].
    { simpl in Hf. apply list_elem_of_singleton in Hf as ->.
      now apply (Hfield cur ""). }
    cbn [split_scan] in Hf.
    destruct (String.prefix sep (String c s)) eqn:Hp.
    + apply elem_of_cons in Hf as [->|Hf];
        [now apply (Hfield cur (String c s))|].
      destruct (prefix_split sep _ Hp) as [rest Hrest].
      destruct sep as [|c0 sep']; [congruence|].
      rewrite append_cons in Hrest. injection Hrest as -> ->.
      replace (String.length (String c0 sep') - 1)%nat
        with (String.length sep') in Hf by (simpl; lia).
      rewrite split_scan_skip in Hf.
      apply (IH rest ""); [| |exact Hf].
      * simpl in Hlen. rewrite length_append in Hlen. lia.
      * intros pre t Heq Hne. symmetry in Heq.
        apply append_eq_empty in Heq. contradiction.
    + apply (IH s (cur +:+ String c "")); [simpl in Hlen; lia| |exact Hf].
      intros pre t Heq Hne.
      destruct (snoc_suffix c pre cur t Heq Hne) as (t0 & -> & ->).
      rewrite append_assoc. change (String c "" +:+ s) with (String c s).
      destruct t0 as [|a t0]; [exact Hp|].
      now apply (Hinv pre (String a t0)).
Qed.

(** No field of a record contains the separator it was split at. *)
Theorem csv_fields_free_of_separator (data separator : string)
        (r : SingleCSVRecord) :
  separator <> "" ->
  _to_single_csv_record data separator = Ok r ->
  forall f, f ∈ values r ->
            forall pre post, f <> pre +:+ separator +:+ post.
Proof.
  intros Hsep Hr f Hf.
  unfold _to_single_csv_record, split in Hr.
  destruct (String.eqb_spec separator "") as [|_]; [contradiction|].
  simpl in Hr. injection Hr as <-. simpl in Hf.
  apply (split_scan_fields_clean separator Hsep (String.length data) data "");
    [lia| |exact Hf].
  intros pre t Heq Hne. symmetry in Heq.
  apply append_eq_empty in Heq. contradiction.
Qed.

End CsvFields.

(** * The further theorems at work on the demo deployment *)

Lemma batch_csv_record_keeps_lines_witness :
  "," <> "" /\
  exists b,
    TransformCsvService._to_batch_csv_record ["5.1,3.5"; "4.9,3.0"] ","
    = Ok b /\
    length (TransformCsvService.records b) = 2%nat.
Proof.
  split; [discriminate|].
  destruct (batch_csv_record_keeps_lines ["5.1,3.5"; "4.9,3.0"] ",")
    as (b & Hb & Hlen & _); [discriminate|].
  exists b. split; [exact Hb|exact Hlen].
Defined.

Lemma csv_fields_free_of_separator_witness :
  let r := TransformCsvService.MkSingleCSVRecord ["a"; "b-c"; ""] in
  "--" <> "" /\
  TransformCsvService._to_single_csv_record "a--b-c--" "--" = Ok r /\
  forall f, f ∈ TransformCsvService.values r ->
            forall pre post, f <> pre +:+ "--" +:+ post.
Proof.
  intros r.
  assert (Hsep : "--" <> "") by discriminate.
  split; [exact Hsep|]. split; [reflexivity|].
  exact (csv_fields_free_of_separator "a--b-c--" "--" r Hsep eq_refl).
Defined.

Lemma demo_predict_ready :
  predict_ready (demo_world (VRef 4)) (VRef 6) (VStr "demo") (VStr "iris").
Proof.
  exists (VRef 1), (VRef 3). repeat split; vm_compute; reflexivity.
Defined.


Lemma start_does_not_retry_witness :
  let req := ModelStateChange (VStr "0") (VStr "42") "start" in
  wired (demo_world (VRef 4)) (VRef 6) (VStr "0") (VStr "42") /\
  has_printer (demo_world (VRef 4)) (VRef 6) /\
  start (failing_server 0 Written true) 5 (VRef 6) (demo_world (VRef 4))
  = (Raise ApiException,
     MkWorld (demo_heap (VRef 4)) [req] [] 0 ∅ [Sent req]) /\
  start (failing_server 2 Written true) 5 (VRef 6) (demo_world (VRef 4))
  = (Raise ApiException,
     MkWorld (demo_heap (VRef 4)) [req; req; req]
             [">>> Starting to serve model...";
              ">>> Waiting for deployment..."]
             10 ∅
             [Sent req; Printed ">>> Starting to serve model...";
              Slept 5; Sent req; Printed ">>> Waiting for deployment...";
              Slept 5; Sent req]).
Proof.
  intros req.
  split; [apply demo_wired|]. split; [apply demo_has_printer|].
  split.
  - pose proof (start_does_not_retry
                  (failing_server 0 Written true) (VRef 6) (VStr "0")
                  (VStr "42") (demo_world (VRef 4)) demo_wired
                  (demo_has_printer (VRef 4))) as H.
    cbv zeta in H. destruct H as [H _]. apply (H eq_refl 5%nat).
  - pose proof (start_does_not_retry
                  (failing_server 2 Written true) (VRef 6) (VStr "0")
                  (VStr "42") (demo_world (VRef 4)) demo_wired
                  (demo_has_printer (VRef 4))) as H.
    cbv zeta in H. destruct H as [_ H].
    apply (H 1%nat); [eexists; reflexivity| |reflexivity|lia].
    intros [|i] Hi; [|lia].
    exists (VStr "starting"). split; [reflexivity|discriminate].
Defined.

Lemma predict_sends_one_batched_request_witness :
  let env := demo_server 0 demo_outputs true in
  let data := Arrs [demo_array; Ndarray [1]%nat (ints [9])] in
  predict_ready (demo_world (VRef 4)) (VRef 6) (VStr "demo") (VStr "iris") /\
  sent (predict env (VRef 6) data (VStr "default") (demo_world (VRef 4))).2
  = [MultiPredict (VStr "demo") (VStr "iris") (VStr "default") "b2a1" false
                  [MkINDArray "c" [2; 3] (ints [1; 2; 3; 4; 5; 6]);
                   MkINDArray "c" [1] (ints [9])]].
Proof.
  intros env data. split; [apply demo_predict_ready|].
  apply (predict_sends_one_batched_request
           env (VRef 6) (VStr "demo") (VStr "iris") data (VStr "default")
           (demo_world (VRef 4)) demo_predict_ready).
Defined.

Lemma predict_on_empty_response_witness :
  let env := demo_server 0 [] true in
  let data := Arr demo_array in
  predict_ready (demo_world (VRef 4)) (VRef 6) (VStr "demo") (VStr "iris") /\
  outputs_of env (length (sent (demo_world (VRef 4)))) = Some [] /\
  (predict env (VRef 6) data (VStr "default") (demo_world (VRef 4))).1
  = Ok (Arrs []) /\
  (predict_single env (VRef 6) data (VStr "default") (demo_world (VRef 4))).1
  = Raise IndexError.
Proof.
  intros env data. split; [apply demo_predict_ready|].
  split; [reflexivity|].
  apply (predict_on_empty_response
           env (VRef 6) (VStr "demo") (VStr "iris") data (VStr "default")
           (demo_world (VRef 4)) demo_predict_ready eq_refl).
Defined.

Lemma predict_rejects_malformed_output_witness :
  let bad := MkINDArray "c" [2; 2] (ints [9; 10; 11]) in
  let outs := [MkINDArray "c" [1; 2] (ints [7; 8]); bad] in
  let env := demo_server 0 outs true in
  let data := Arr demo_array in
  predict_ready (demo_world (VRef 4)) (VRef 6) (VStr "demo") (VStr "iris") /\
  bad ∈ outs /\
  (forall a, output_array bad <> Ok a) /\
  (predict env (VRef 6) data (VStr "default") (demo_world (VRef 4))).1
  = Raise ValueError /\
  (predict_single env (VRef 6) data (VStr "default") (demo_world (VRef 4))).1
  = Ok (Arr (Ndarray [1; 2]%nat (ints [7; 8]))).
Proof.
  intros bad outs env data.
  assert (Hin : bad ∈ outs) by (right; left).
  assert (Hbad : forall a, output_array bad <> Ok a) by (intros a; discriminate).
  split; [apply demo_predict_ready|].
  split; [exact Hin|]. split; [exact Hbad|].
  destruct (predict_rejects_malformed_output
              env (VRef 6) (VStr "demo") (VStr "iris") data (VStr "default")
              (demo_world (VRef 4)) outs bad demo_predict_ready eq_refl
              Hin Hbad) as [H1 H2].
  split; [exact H1|].
  exact (H2 _ _ _ eq_refl eq_refl).
Defined.



Lemma delete_sends_id_and_keeps_it_witness :
  let w := store 9%positive "resource_id" (VInt 7) (demo_world VNone) in
  let env := demo_server 0 [] true in
  attr w (VRef 9) "resource_id" = Some (VInt 7) /\
  truthy (VInt 7) = true /\
  attr w (VRef 9) "skil" = Some (VRef 1) /\
  attr w (VRef 1) "api" = Some VApi /\
  delete env (VRef 9) w = (Ok tt, send (DeleteResourceById (VInt 7)) w) /\
  attr (send (DeleteResourceById (VInt 7)) w) (VRef 9) "resource_id"
  = Some (VInt 7).
Proof.
  intros w env.
  assert (H1 : attr w (VRef 9) "resource_id" = Some (VInt 7))
    by apply attr_store_same.
  assert (H3 : attr w (VRef 9) "skil" = Some (VRef 1))
    by (vm_compute; reflexivity).
  assert (H4 : attr w (VRef 1) "api" = Some VApi)
    by (vm_compute; reflexivity).
  split; [exact H1|]. split; [reflexivity|].
  split; [exact H3|]. split; [exact H4|].
  pose proof (delete_sends_id_and_keeps_it env (VRef 9) (VRef 1) (VInt 7) w
                                           H1 eq_refl H3 H4) as H.
  cbv zeta in H. destruct H as (Hrun & Hkept & _).
  split; [exact Hrun|exact Hkept].
Defined.

Lemma delete_ignores_falsy_id_witness :
  let w := store 9%positive "resource_id" (VInt 0) (demo_world VNone) in
  attr w (VRef 9) "resource_id" = Some (VInt 0) /\
  truthy (VInt 0) = false /\
  delete (demo_server 0 [] true) (VRef 9) w = (Ok tt, w).
Proof.
  intros w.
  assert (H1 : attr w (VRef 9) "resource_id" = Some (VInt 0))
    by apply attr_store_same.
  split; [exact H1|]. split; [reflexivity|].
  exact (delete_ignores_falsy_id (demo_server 0 [] true) (VRef 9) (VInt 0) w
                                 H1 eq_refl).
Defined.

Lemma Service_init_fields_witness :
  let run := Service_init (VRef 10) (VRef 1) (VRef 2) (VRef 3) (VRef 4)
                          (demo_world (VRef 4)) in
  VRef 2 <> VRef 10 /\
  attr (demo_world (VRef 4)) (VRef 2) "name" = Some (VStr "iris") /\
  run.1 = Ok tt /\
  attr run.2 (VRef 10) "model_name" = Some (VStr "iris") /\
  attr run.2 (VRef 6) "model_name" = Some (VStr "iris").
Proof.
  intros run.
  assert (Hne : VRef 2 <> VRef 10) by discriminate.
  assert (Hname : attr (demo_world (VRef 4)) (VRef 2) "name"
                  = Some (VStr "iris")) by (vm_compute; reflexivity).
  split; [exact Hne|]. split; [exact Hname|].
  pose proof (Service_init_fields 10%positive (VRef 1) (VRef 2) (VRef 3)
                                  (VRef 4) (demo_world (VRef 4)) Hne) as H.
  cbv zeta in H. destruct H as (Hok & _ & Hother & _).
  destruct (Hok (VStr "iris") Hname) as (Hr & _ & _ & Hmn & _).
  split; [exact Hr|]. split; [exact Hmn|].
  rewrite Hother by discriminate. vm_compute; reflexivity.
Defined.

Lemma Pipeline_without_transform_is_its_model_witness :
  let env := demo_server 0 [MkINDArray "c" [1; 2] (ints [7; 8])] true in
  let w := store 7%positive "transform_service" VNone (demo_world (VRef 4)) in
  let data := Arr demo_array in
  attr w (VRef 7) "transform_service" = Some VNone /\
  truthy VNone = false /\
  attr w (VRef 7) "model_service" = Some (VRef 6) /\
  Pipeline_predict (predict env) (VRef 7) data (VStr "default") w
  = predict env (VRef 6) data (VStr "default") w.
Proof.
  intros env w data.
  assert (H1 : attr w (VRef 7) "transform_service" = Some VNone)
    by apply attr_store_same.
  assert (H3 : attr w (VRef 7) "model_service" = Some (VRef 6)).
  { unfold w. rewrite attr_store_other by discriminate.
    vm_compute; reflexivity. }
  split; [exact H1|]. split; [reflexivity|]. split; [exact H3|].
  destruct (Pipeline_without_transform_is_its_model
              (predict env) (predict_single env)
              (fun (x : value) (image : pydata pyscalar) (t : string)
                   (b : bool) (path : string) =>
                 detect_objects env (fun s : string => s)
                                (fun s : string => Some s) x demo_array t b
                                path)
              (VRef 7) VNone (VRef 6) data (VStr "default") "0.5" false
              "temp.jpg" w H1 eq_refl H3) as (Hpredict & _ & _).
  exact Hpredict.
Defined.

Lemma demo_wired_transform :
  wired (demo_world (VRef 4)) (VRef 8) (VStr "0") (VStr "42").
Proof.
  exists (VRef 1), (VRef 3), (VRef 4).
  repeat split; vm_compute; reflexivity.
Defined.

Lemma Pipeline_stop_order_witness :
  let env := demo_server 0 [] true in
  let w := demo_world (VRef 4) in
  let req := ModelStateChange (VStr "0") (VStr "42") "stop" in
  attr w (VRef 7) "model_service" = Some (VRef 6) /\
  attr w (VRef 7) "transform_service" = Some (VRef 8) /\
  wired w (VRef 6) (VStr "0") (VStr "42") /\
  is_Some (state_of env (length (sent w))) /\
  Pipeline_stop (stop env) (VRef 7) w
  = (Ok tt, MkWorld (demo_heap (VRef 4)) [req; req] [] 0 ∅
                    [Sent req; Sent req]).
Proof.
  intros env w req.
  assert (H1 : attr w (VRef 7) "model_service" = Some (VRef 6))
    by (vm_compute; reflexivity).
  assert (H2 : attr w (VRef 7) "transform_service" = Some (VRef 8))
    by (vm_compute; reflexivity).
  assert (H4 : is_Some (state_of env (length (sent w))))
    by (eexists; reflexivity).
  split; [exact H1|]. split; [exact H2|]. split; [apply demo_wired|].
  split; [exact H4|].
  apply (proj1 (Pipeline_stop_order env (VRef 7) (VRef 6) (VRef 8) (VStr "0")
                                    (VStr "42") w H1 H2 demo_wired H4)
               (VStr "0") (VStr "42") demo_wired_transform).
  eexists; reflexivity.
Defined.

Lemma Pipeline_start_waits_for_model_witness :
  let w := demo_world (VRef 4) in
  let req := ModelStateChange (VStr "0") (VStr "42") "start" in
  attr w (VRef 7) "model_service" = Some (VRef 6) /\
  wired w (VRef 6) (VStr "0") (VStr "42") /\
  has_printer w (VRef 6) /\
  forall fuel,
    Pipeline_start (start stuck_server fuel) (VRef 7) w
    = (Running, after_polls req fuel (start_requested req w)).
Proof.
  intros w req.
  assert (H1 : attr w (VRef 7) "model_service" = Some (VRef 6))
    by (vm_compute; reflexivity).
  split; [exact H1|]. split; [apply demo_wired|].
  split; [apply demo_has_printer|].
  apply (Pipeline_start_waits_for_model
           stuck_server (VRef 7) (VRef 6) (VStr "0") (VStr "42") w H1
           demo_wired (demo_has_printer (VRef 4))).
  - eexists; reflexivity.
  - intros i. exists (VStr "starting"). split; [reflexivity|discriminate].
Defined.
